(** * Fraud-detection front end: the prediction aggregation of [streamlit_app.py]

    The development embeds the parts of [streamlit_app.py] that carry a
    contract: the canned transactions, the three places that read a model's
    probabilities out of the predictions mapping, the headline mean and
    maximum, the alert, the detail table and the control flow of [main]
    around model loading, JSON input and exceptions.

    Conventions of the embedding:
    - a Python [float] that holds a probability or an amount is an exact
      rational ([Q]); [nan], which [np.mean] yields on an empty list, is
      [None] in an [option Q];
    - a Python [dict] is an association list in insertion order with unique
      keys;
    - a Python exception is a value of [Exn], raised through [inl];
    - what Streamlit renders is a log of [UI] events, threaded by the monad
      [M], which keeps the log when an exception passes through;
    - [prediction.load_models], [prediction.process_transaction],
      [json.loads] and the random generator are not part of the file: they
      are the variables of Section [Script]. *)

From Stdlib Require Import QArith Qminmax Qabs ZArith List String Ascii Bool Lia Lqa.
From Stdlib Require Import DecimalString.
Import ListNotations.

Set Warnings "-register-all".

Local Open Scope string_scope.
Local Open Scope Q_scope.

(** ** Python values and exceptions *)

Module Py.

(** A subscript: [pred['fraud']] or [pred[1]]. *)
Inductive Key : Type :=
| KStr (s : string)
| KInt (i : Z).

Definition Key_eqb (a b : Key) : bool :=
  match a, b with
  | KStr s, KStr t => String.eqb s t
  | KInt i, KInt j => Z.eqb i j
  | _, _ => false
  end.

Inductive Exn : Type :=
| KeyError (k : Key)
| IndexError
| TypeError
| ValueError
| JSONDecodeError
| OtherError (msg : string).

Definition result (A : Type) : Type := (Exn + A)%type.

Definition ok {A} (a : A) : result A := inr a.
Definition raise {A} (e : Exn) : result A := inl e.

Definition rbind {A B} (m : result A) (f : A -> result B) : result B :=
  match m with
  | inl e => inl e
  | inr a => f a
  end.

(** [d[k]] on a dict whose keys are strings. *)
Fixpoint dict_get {V} (d : list (string * V)) (k : string) : result V :=
  match d with
  | [] => raise (KeyError (KStr k))
  | (k', v) :: d' => if String.eqb k' k then ok v else dict_get d' k
  end.

(** [d[k] = v]: the value is replaced in place when the key is there, the
    item is appended otherwise. *)
Fixpoint dict_set {V} (d : list (string * V)) (k : string) (v : V)
  : list (string * V) :=
  match d with
  | [] => [(k, v)]
  | (k', v') :: d' =>
      if String.eqb k' k then (k', v) :: d' else (k', v') :: dict_set d' k v
  end.

(** [{**items}]: the items are inserted one after the other. *)
Definition dict_of_items {V} (items : list (string * V)) : list (string * V) :=
  fold_left (fun d kv => dict_set d (fst kv) (snd kv)) items [].

Definition dict_keys {V} (d : list (string * V)) : list string := map fst d.

(** What a model reports: a mapping from field to number (the shape of the
    [svc] entry) or a sequence of numbers (the shape of the others). *)
Inductive Pred : Type :=
| PMap (fields : list (Key * Q))
| PSeq (xs : list Q).

Fixpoint fields_get (fs : list (Key * Q)) (k : Key) : result Q :=
  match fs with
  | [] => raise (KeyError k)
  | (k', v) :: fs' => if Key_eqb k' k then ok v else fields_get fs' k
  end.

(** Indexing a sequence with an integer: negative indices count from the
    end, anything out of range raises [IndexError]. *)
Definition seq_get (xs : list Q) (i : Z) : result Q :=
  let n := Z.of_nat (List.length xs) in
  let j := if (i <? 0)%Z then (n + i)%Z else i in
  if ((0 <=? j) && (j <? n))%bool%Z
  then match nth_error xs (Z.to_nat j) with
       | Some x => ok x
       | None => raise IndexError
       end
  else raise IndexError.

(** [pred[k]]. *)
Definition subscript (p : Pred) (k : Key) : result Q :=
  match p with
  | PMap fs => fields_get fs k
  | PSeq xs =>
      match k with
      | KInt i => seq_get xs i
      | KStr _ => raise TypeError
      end
  end.

(** [np.mean] of a list of floats: the sum, accumulated from the left,
    over the length; [nan] ([None]) on the empty list. *)
Definition np_sum (l : list Q) : Q := fold_left Qplus l 0.

Definition np_mean (l : list Q) : option Q :=
  match l with
  | [] => None
  | _ => Some (np_sum l / inject_Z (Z.of_nat (List.length l)))
  end.

(** [np.max]: [ValueError] on the empty list. *)
Definition np_max (l : list Q) : result Q :=
  match l with
  | [] => raise ValueError
  | x :: l' => ok (fold_left Qmax l' x)
  end.

(** [x > 0.5], false when [x] is [nan]. *)
Definition gt_half (x : Q) : bool :=
  match (1 # 2) ?= x with Lt => true | _ => false end.

Definition nan_gt_half (x : option Q) : bool :=
  match x with
  | Some q => gt_half q
  | None => false
  end.

End Py.

Import Py.

Declare Scope result_scope.
Delimit Scope result_scope with result.
Notation "x <- m ;; k" := (rbind m (fun x => k))
  (at level 61, m at next level, right associativity) : result_scope.

(** ** The application: [streamlit_app.py] *)

Module App.

(** The transaction handed to the models: whatever [json.loads] can return,
    which covers the dicts the form and the canned examples build. *)
Inductive Value : Type :=
| VNone
| VBool (b : bool)
| VInt (i : Z)
| VFloat (x : Q)
| VStr (s : string)
| VList (l : list Value)
| VDict (items : list (string * Value)).

(** The predictions mapping returned by [process_transaction]. *)
Definition Predictions : Type := list (string * Pred).

(** [fig1] of [plot_predictions]: the bars, their heights and their colours.
    The bar labels [f'{prob:.3f}'] are the heights themselves. *)
Record BarChart : Type := {
  bar_x : list string;
  bar_y : list Q;
  bar_marker_color : list string
}.

(** [fig2] of [plot_predictions]: the gauge of the mean. *)
Record Gauge : Type := {
  gauge_value : option Q;
  gauge_bar_color : string
}.

(** One row of the detail table; the two probabilities are kept as numbers
    (the source prints them with four decimals). *)
Record Row : Type := {
  Modelo : string;
  Probabilidad_Normal : Q;
  Probabilidad_Fraude : Q;
  Prediccion : string
}.

(** What a run renders, in order. [Invoked d] is not rendered: it records
    that [process_transaction] was called on [d]. Static text (title,
    headers, sidebar) is left out. *)
Inductive UI : Type :=
| StError (msg : string) (cause : option Exn)
| StSuccess (msg : string)
| StJson (d : Value)
| FraudAlert (avg_fraud_prob max_fraud_prob : Q)
| SafeAlert (avg_fraud_prob max_fraud_prob : Q)
| StMetric (col : nat) (label : string) (fraud_prob normal_prob : Q)
| PlotlyBar (fig : BarChart)
| PlotlyGauge (fig : Gauge)
| DataFrame (rows : list Row)
| Invoked (d : Value).

(** The script monad: a log of rendered elements and a possible exception.
    The log survives the exception, as what Streamlit has already drawn
    stays on the page. *)
Definition M (A : Type) : Type := list UI -> result A * list UI.

Definition mret {A} (a : A) : M A := fun log => (ok a, log).

Definition mbind {A B} (m : M A) (f : A -> M B) : M B :=
  fun log =>
    match m log with
    | (inl e, log') => (inl e, log')
    | (inr a, log') => f a log'
    end.

Definition emit (u : UI) : M unit := fun log => (ok tt, (log ++ [u])%list).

Definition lift {A} (r : result A) : M A := fun log => (r, log).

(** [try: m except Exception as e: h e]. *)
Definition try_except {A} (m : M A) (h : Exn -> M A) : M A :=
  fun log =>
    match m log with
    | (inl e, log') => h e log'
    | (inr a, log') => (inr a, log')
    end.

(** [try: m except json.JSONDecodeError: h]: any other exception goes on. *)
Definition try_except_json {A} (m : M A) (h : M A) : M A :=
  fun log =>
    match m log with
    | (inl JSONDecodeError, log') => h log'
    | r => r
    end.

Declare Scope script_scope.
Delimit Scope script_scope with script.
Notation "x <- m ;; k" := (mbind m (fun x => k))
  (at level 61, m at next level, right associativity) : script_scope.
Notation "m ;; k" := (mbind m (fun _ => k))
  (at level 61, right associativity) : script_scope.

(** *** Canned transactions *)

(** [f'v{i}']. *)
Definition v_key (i : nat) : string :=
  "v" ++ NilEmpty.string_of_uint (Nat.to_uint i).

(** [np.random.normal(loc, scale)] on the [n]-th standard variate that the
    generator hands out. *)
Definition np_random_normal (rng : nat -> Q) (n : nat) (loc scale : Q) : Q :=
  loc + scale * rng n.

(** [{f'v{i}': draw i for i in range(1, 29)}], the [n]-th draw going to the
    [n]-th key. *)
Definition v_items (draw : nat -> nat -> Q) : list (string * Value) :=
  dict_of_items
    (map (fun ni => (v_key (snd ni), VFloat (draw (fst ni) (snd ni))))
         (combine (seq 0 28) (seq 1 28))).

Definition create_sample_transaction (rng : nat -> Q) : Value :=
  VDict (dict_of_items
           (([("amount", VFloat (201 # 2)); ("time", VInt 3600)]
             ++ v_items (fun n _ => np_random_normal rng n 0 1))%list)).

Definition in_fraud_list (i : nat) : bool :=
  existsb (Nat.eqb i) [1; 3; 7; 10; 14]%nat.

Definition create_fraud_sample (rng : nat -> Q) : Value :=
  VDict (dict_of_items
           (([("amount", VFloat 5000); ("time", VInt 25200)]
             ++ v_items (fun n i =>
                           if in_fraud_list i
                           then np_random_normal rng n 0 2
                           else np_random_normal rng n 0 (1 # 2)))%list)).

(** *** Reading a model's probabilities *)

(** Lines 101-105 of [plot_predictions], and the same test at lines 270-273
    of [main]: the fraud probability alone. *)
Definition chart_fraud_prob (model : string) (pred : Pred) : result Q :=
  if String.eqb model "svc"
  then subscript pred (KStr "fraud")
  else subscript pred (KInt 1).

(** Lines 306-311 of [main], the per-model metrics: [(normal_prob,
    fraud_prob)]. For [svc] the fraud field is read first. *)
Definition panel_probs (predictions : Predictions) (key : string)
  : result (Q * Q) :=
  (if String.eqb key "svc"
   then
     pred <- dict_get predictions key ;;
     fraud_prob <- subscript pred (KStr "fraud") ;;
     pred' <- dict_get predictions key ;;
     normal_prob <- subscript pred' (KStr "non_fraud") ;;
     ok (normal_prob, fraud_prob)
   else
     pred <- dict_get predictions key ;;
     normal_prob <- subscript pred (KInt 0) ;;
     pred' <- dict_get predictions key ;;
     fraud_prob <- subscript pred' (KInt 1) ;;
     ok (normal_prob, fraud_prob))%result.

(** Lines 343-348 of [main], the detail table: [(normal_prob, fraud_prob)]. *)
Definition table_probs (model_name : string) (pred : Pred) : result (Q * Q) :=
  (if String.eqb model_name "svc"
   then
     normal_prob <- subscript pred (KStr "non_fraud") ;;
     fraud_prob <- subscript pred (KStr "fraud") ;;
     ok (normal_prob, fraud_prob)
   else
     normal_prob <- subscript pred (KInt 0) ;;
     fraud_prob <- subscript pred (KInt 1) ;;
     ok (normal_prob, fraud_prob))%result.

(** Lines 268-274 of [main]: the loop over [predictions.items()] that
    fills [fraud_probs]. *)
Fixpoint collect_fraud_probs (predictions : Predictions) : result (list Q) :=
  match predictions with
  | [] => ok []
  | (model, pred) :: rest =>
      (fraud_prob <- chart_fraud_prob model pred ;;
       fraud_probs <- collect_fraud_probs rest ;;
       ok (fraud_prob :: fraud_probs))%result
  end.

(** *** [plot_predictions] *)

Definition red : string := "#ff4444".
Definition green : string := "#44ff44".

(** Lines 98-105: the loop over [predictions.keys()], each entry being
    looked up again under its key. *)
Fixpoint keyed_fraud_probs (predictions : Predictions) (models : list string)
  : result (list Q) :=
  match models with
  | [] => ok []
  | model :: rest =>
      (pred <- dict_get predictions model ;;
       fraud_prob <- chart_fraud_prob model pred ;;
       fraud_probs <- keyed_fraud_probs predictions rest ;;
       ok (fraud_prob :: fraud_probs))%result
  end.

Definition plot_predictions (predictions : Predictions)
  : result (BarChart * Gauge) :=
  (let models := dict_keys predictions in
   fraud_probs <- keyed_fraud_probs predictions models ;;
   let fig1 := {| bar_x := models;
                  bar_y := fraud_probs;
                  bar_marker_color :=
                    map (fun prob => if gt_half prob then red else green)
                        fraud_probs |} in
   let avg_fraud_prob := np_mean fraud_probs in
   let fig2 := {| gauge_value := avg_fraud_prob;
                  gauge_bar_color :=
                    if nan_gt_half avg_fraud_prob then red else green |} in
   ok (fig1, fig2))%result.

(** *** The headline of [main]: lines 268-295 *)

(** [avg_fraud_prob] and [max_fraud_prob]. On an empty mapping the mean is
    [nan] and [np.max] raises before the mean is used. *)
Definition headline (predictions : Predictions) : result (Q * Q) :=
  (fraud_probs <- collect_fraud_probs predictions ;;
   let avg_fraud_prob := np_mean fraud_probs in
   max_fraud_prob <- np_max fraud_probs ;;
   match avg_fraud_prob with
   | Some avg => ok (avg, max_fraud_prob)
   | None => raise ValueError
   end)%result.

Definition alert (avg_fraud_prob max_fraud_prob : Q) : UI :=
  if gt_half avg_fraud_prob
  then FraudAlert avg_fraud_prob max_fraud_prob
  else SafeAlert avg_fraud_prob max_fraud_prob.

(** *** The detail table: lines 341-355 *)

Definition is_lower (c : ascii) : bool :=
  let n := nat_of_ascii c in ((97 <=? n) && (n <=? 122))%nat.
Definition is_upper (c : ascii) : bool :=
  let n := nat_of_ascii c in ((65 <=? n) && (n <=? 90))%nat.
Definition to_upper (c : ascii) : ascii :=
  if is_lower c then ascii_of_nat (nat_of_ascii c - 32) else c.
Definition to_lower (c : ascii) : ascii :=
  if is_upper c then ascii_of_nat (nat_of_ascii c + 32) else c.

(** [s.replace('_', ' ')]. *)
Fixpoint replace_underscore (s : string) : string :=
  match s with
  | EmptyString => EmptyString
  | String c s' =>
      String (if Ascii.eqb c "_" then " "%char else c) (replace_underscore s')
  end.

(** [s.title()] on ASCII text: a letter that follows a letter is lowered,
    any other letter is raised. *)
Fixpoint title_from (prev_cased : bool) (s : string) : string :=
  match s with
  | EmptyString => EmptyString
  | String c s' =>
      let cased := (is_lower c || is_upper c)%bool in
      String (if cased then (if prev_cased then to_lower c else to_upper c)
              else c)
             (title_from cased s')
  end.

Definition title (s : string) : string := title_from false s.

Definition prediccion (fraud_prob : Q) : string :=
  if gt_half fraud_prob then "FRAUDE" else "NORMAL".

Fixpoint results_df (predictions : Predictions) : result (list Row) :=
  match predictions with
  | [] => ok []
  | (model_name, pred) :: rest =>
      (probs <- table_probs model_name pred ;;
       let row := {| Modelo := title (replace_underscore model_name);
                     Probabilidad_Normal := fst probs;
                     Probabilidad_Fraude := snd probs;
                     Prediccion := prediccion (snd probs) |} in
       rows <- results_df rest ;;
       ok (row :: rows))%result
  end.

(** *** Widgets *)

(** [st.number_input]: the widget hands back the entry when it lies within
    its bounds; an entry outside them is refused and the widget keeps its
    current value ([value] on a fresh page). *)
Definition within (min_value max_value : option Q) (x : Q) : bool :=
  (match min_value with Some lo => Qle_bool lo x | None => true end
   && match max_value with Some hi => Qle_bool x hi | None => true end)%bool.

Definition number_input (min_value max_value : option Q) (value entry : Q) : Q :=
  if within min_value max_value entry then entry else value.

(** The same widget when every argument is a Python [int]. *)
Definition within_int (min_value max_value entry : Z) : bool :=
  ((min_value <=? entry) && (entry <=? max_value))%Z%bool.

Definition number_input_int (min_value max_value value entry : Z) : Z :=
  if within_int min_value max_value entry then entry else value.

(** The four choices of the select box. *)
Inductive Method : Type :=
| Manual
| Ejemplo_Normal
| Ejemplo_Fraudulento
| JSON.

(** What the user did before this run of the script. *)
Record Inputs : Type := {
  data_input_method : Method;
  amount_entry : Q;
  time_entry : Z;
  v_entry : nat -> Q;
  json_input : string;
  analizar : bool;
  visualizar : bool;
  rng : nat -> Q
}.

(** Lines 203-205: the bounds of the two main fields. *)
Definition amount_min_value : Q := 1 # 100.
Definition time_min_value : Z := 0.
Definition time_max_value : Z := 86400.

(** Lines 203-232: the manual form. *)
Definition manual_form (i : Inputs) : Value :=
  let amount := number_input (Some amount_min_value) None 100 (amount_entry i) in
  let time :=
    number_input_int time_min_value time_max_value 3600 (time_entry i) in
  let transaction_data := [] in
  let transaction_data := dict_set transaction_data "amount" (VFloat amount) in
  let transaction_data := dict_set transaction_data "time" (VInt time) in
  VDict
    (fold_left
       (fun d n => dict_set d (v_key n)
                     (VFloat (number_input None None 0 (v_entry i n))))
       (seq 1 10 ++ seq 11 10 ++ seq 21 8)%list
       transaction_data).

(** Whether the two bounded fields take the entries as they are. *)
Definition manual_accepts (amount_entry : Q) (time_entry : Z) : bool :=
  (within (Some amount_min_value) None amount_entry
   && within_int time_min_value time_max_value time_entry)%bool.

(** *** [main] *)

Section Script.

(** The collaborators of [main] that live outside the file. *)
Variable Models : Type.
Variable models_len : Models -> nat.
Variable load_models : result Models.
Variable process_transaction : Value -> Models -> result Predictions.
Variable json_loads : string -> result Value.

(** Lines 64-71. *)
Definition load_ml_models : M (option Models) :=
  try_except
    (models <- lift load_models ;; mret (Some models))%script
    (fun e =>
       emit (StError "Error al cargar los modelos: " (Some e)) ;;
       mret None)%script.

Definition call_process_transaction (transaction_data : Value)
    (models : Models) : M Predictions :=
  (emit (Invoked transaction_data) ;;
   lift (process_transaction transaction_data models))%script.

(** Lines 196-256: the left column. *)
Definition input_section (i : Inputs) : M Value :=
  match data_input_method i with
  | Manual => mret (manual_form i)
  | Ejemplo_Normal =>
      (let transaction_data := create_sample_transaction (rng i) in
       emit (StJson transaction_data) ;; mret transaction_data)%script
  | Ejemplo_Fraudulento =>
      (let transaction_data := create_fraud_sample (rng i) in
       emit (StJson transaction_data) ;; mret transaction_data)%script
  | JSON =>
      try_except_json
        (if String.eqb (json_input i) ""
         then mret (create_sample_transaction (rng i))
         else
           (transaction_data <- lift (json_loads (json_input i)) ;;
            emit (StSuccess "✅ JSON válido") ;;
            mret transaction_data)%script)
        (emit (StError "❌ JSON inválido" None) ;;
         mret (create_sample_transaction (rng i)))%script
  end.

Definition model_names : list string :=
  ["Regresión Logística"; "K-Vecinos"; "SVM"; "Árbol de Decisión"].
Definition model_keys : list string :=
  ["logistic"; "kneighbors"; "svc"; "tree"].

(** Lines 304-317: one metric per model key, in two columns. *)
Fixpoint metrics_from (predictions : Predictions) (i : nat)
    (names_keys : list (string * string)) : M unit :=
  match names_keys with
  | [] => mret tt
  | (display_name, key) :: rest =>
      (probs <- lift (panel_probs predictions key) ;;
       emit (StMetric (i mod 2) display_name (snd probs) (fst probs)) ;;
       metrics_from predictions (S i) rest)%script
  end.

Definition metrics_panel (predictions : Predictions) : M unit :=
  metrics_from predictions 0 (combine model_names model_keys).

(** Lines 261-320: the button that analyses the transaction. *)
Definition analizar_transaccion (transaction_data : Value) (models : Models)
  : M unit :=
  try_except
    (predictions <- call_process_transaction transaction_data models ;;
     avg_max <- lift (headline predictions) ;;
     emit (alert (fst avg_max) (snd avg_max)) ;;
     metrics_panel predictions)%script
    (fun e => emit (StError "Error al procesar la transacción: " (Some e))).

(** Lines 323-361: the button that draws the charts and the table. *)
Definition generar_visualizaciones (transaction_data : Value)
    (models : Models) : M unit :=
  try_except
    (predictions <- call_process_transaction transaction_data models ;;
     figs <- lift (plot_predictions predictions) ;;
     emit (PlotlyBar (fst figs)) ;;
     emit (PlotlyGauge (snd figs)) ;;
     rows <- lift (results_df predictions) ;;
     emit (DataFrame rows))%script
    (fun e => emit (StError "Error al generar visualizaciones: " (Some e))).

Definition loaded_msg (n : nat) : string :=
  "✅ " ++ NilEmpty.string_of_uint (Nat.to_uint n)
  ++ " modelos cargados correctamente".

Definition no_models_msg : string :=
  "❌ No se pudieron cargar los modelos. Verifica que los archivos .pkl estén en la carpeta 'model/'".

(** Lines 155-379. *)
Definition main (i : Inputs) : M unit :=
  (models <- load_ml_models ;;
   match models with
   | None => emit (StError no_models_msg None)
   | Some models =>
       emit (StSuccess (loaded_msg (models_len models))) ;;
       transaction_data <- input_section i ;;
       (if analizar i then analizar_transaccion transaction_data models
        else mret tt) ;;
       (if visualizar i then generar_visualizaciones transaction_data models
        else mret tt)
   end)%script.

End Script.

(** *** Reading a log *)

(** The transactions on which [process_transaction] was called. *)
Definition invocations (log : list UI) : list Value :=
  flat_map (fun u => match u with Invoked d => [d] | _ => [] end) log.

(** The alert banners of a log. *)
Definition alerts (log : list UI) : list UI :=
  filter (fun u => match u with
                   | FraudAlert _ _ | SafeAlert _ _ => true
                   | _ => false
                   end) log.

(** What a button contributes to the calls: its transaction when it was
    pressed. *)
Definition clicked (b : bool) (data : Value) : list Value :=
  if b then [data] else [].


Definition metrics (log : list UI) : list UI :=
  filter (fun u => match u with StMetric _ _ _ _ => true | _ => false end) log.

Definition is_metric (u : UI) : bool :=
  match u with
  | StMetric _ _ _ _ => true
  | _ => false
  end.

Definition metric_or_error (u : UI) : bool :=
  match u with
  | StMetric _ _ _ _ | StError _ _ => true
  | _ => false
  end.

End App.
Import App.

(** ** The design of the specification *)

Module Design.

(** The thirty field names, in the order of the feature vector. *)
Definition required_keys : list string :=
  ("amount" :: "time" :: map v_key (seq 1 28))%list.

Record TransactionRecord : Type := {
  amount : Q;
  time : Z;
  v : list Q
}.

Inductive ValidationError : Type :=
| MissingField (name : string)
| UnexpectedField (name : string)
| InvalidField (name : string).

Definition numeric (x : Value) : option Q :=
  match x with
  | VInt i => Some (inject_Z i)
  | VFloat q => Some q
  | _ => None
  end.

Definition mem (k : string) (ks : list string) : bool :=
  existsb (String.eqb k) ks.

Definition first_missing (items : list (string * Value)) : option string :=
  find (fun k => negb (mem k (dict_keys items))) required_keys.

Definition first_unexpected (items : list (string * Value)) : option string :=
  find (fun k => negb (mem k required_keys)) (dict_keys items).

Definition field (items : list (string * Value)) (k : string) : option Value :=
  match dict_get items k with
  | inr x => Some x
  | inl _ => None
  end.

Fixpoint v_fields (items : list (string * Value)) (ks : list string)
  : ValidationError + list Q :=
  match ks with
  | [] => inr []
  | k :: ks' =>
      match option_map numeric (field items k) with
      | Some (Some q) =>
          match v_fields items ks' with
          | inr qs => inr (q :: qs)
          | inl e => inl e
          end
      | _ => inl (InvalidField k)
      end
  end.

(** Modelled from the spec: the Feature Validator [validate] of section
    4.2, which [streamlit_app.py] does not define. The checks are the
    spec's: the thirty keys and no other, [amount] numeric and at least 0,
    [time] an integer from 0 to 86400, [v1..v28] numeric; the error names
    the field. *)
Definition validate (raw : Value) : ValidationError + TransactionRecord :=
  match raw with
  | VDict items =>
      match first_missing items with
      | Some k => inl (MissingField k)
      | None =>
          match first_unexpected items with
          | Some k => inl (UnexpectedField k)
          | None =>
              match option_map numeric (field items "amount") with
              | Some (Some a) =>
                  if Qle_bool 0 a
                  then
                    match field items "time" with
                    | Some (VInt t) =>
                        if ((0 <=? t) && (t <=? 86400))%Z%bool
                        then
                          match v_fields items (map v_key (seq 1 28)) with
                          | inr vs =>
                              inr {| amount := a; time := t; v := vs |}
                          | inl e => inl e
                          end
                        else inl (InvalidField "time")
                    | _ => inl (InvalidField "time")
                    end
                  else inl (InvalidField "amount")
              | _ => inl (InvalidField "amount")
              end
          end
      end
  | _ => inl (InvalidField "")
  end.

(** The ranges of the validator in the words of the specification. *)
Definition claimed_range_ok (amount : Q) (time : Z) : Prop :=
  0 <= amount /\ (0 <= time <= 86400)%Z.

(** The normalization rule in the words of the specification: named fields
    for [svc], positions 0 and 1 for every other key. *)
Definition canonical_pair (key : string) (pred : Pred) : option (Q * Q) :=
  if String.eqb key "svc"
  then match subscript pred (KStr "non_fraud"), subscript pred (KStr "fraud") with
       | inr n, inr f => Some (n, f)
       | _, _ => None
       end
  else match subscript pred (KInt 0), subscript pred (KInt 1) with
       | inr n, inr f => Some (n, f)
       | _, _ => None
       end.

(** The fraud half of the same rule: field [fraud] for [svc], position 1
    for every other key. *)
Definition canonical_fraud (key : string) (pred : Pred) : option Q :=
  match subscript pred (if String.eqb key "svc" then KStr "fraud" else KInt 1) with
  | inr f => Some f
  | inl _ => None
  end.

(** A transaction fit for scoring: the thirty keys, a positive amount, a
    time of day in seconds, within the bounds of the manual form and
    approved by the validator. *)
Definition acceptable (sample : Value) : Prop :=
  exists items amount time,
    sample = VDict items /\
    dict_keys items = required_keys /\
    List.length items = 30%nat /\
    dict_get items "amount" = inr (VFloat amount) /\
    0 < amount /\
    dict_get items "time" = inr (VInt time) /\
    (0 <= time <= 86400)%Z /\
    manual_accepts amount time = true /\
    exists record, validate sample = inr record.

End Design.

(** ** Concrete runs *)

Module Demo.

Definition four_models : Predictions :=
  [("logistic", PSeq [9 # 10; 1 # 10]);
   ("kneighbors", PSeq [3 # 10; 7 # 10]);
   ("svc", PMap [(KStr "fraud", 3 # 4); (KStr "non_fraud", 1 # 4)]);
   ("tree", PSeq [1 # 2; 1 # 2])].

(** Two models out of four say fraud and the mean is exactly one half. *)
Definition mean_half : Predictions :=
  [("logistic", PSeq [1 # 10; 9 # 10]);
   ("kneighbors", PSeq [9 # 10; 1 # 10]);
   ("svc", PMap [(KStr "fraud", 3 # 4); (KStr "non_fraud", 1 # 4)]);
   ("tree", PSeq [3 # 4; 1 # 4])].

(** Three models say fraud, one does not, and the mean is above one half. *)
Definition mostly_fraud : Predictions :=
  [("logistic", PSeq [1 # 10; 9 # 10]);
   ("kneighbors", PSeq [1 # 10; 9 # 10]);
   ("svc", PMap [(KStr "fraud", 3 # 4); (KStr "non_fraud", 1 # 4)]);
   ("tree", PSeq [9 # 10; 1 # 10])].

(** The mapping when [tree] is missing. *)
Definition no_tree : Predictions :=
  [("logistic", PSeq [1 # 10; 9 # 10]);
   ("kneighbors", PSeq [3 # 10; 7 # 10]);
   ("svc", PMap [(KStr "fraud", 3 # 4); (KStr "non_fraud", 1 # 4)])].

(** The [svc] entry reports its fraud probability only. *)
Definition svc_fraud_only : Predictions :=
  [("logistic", PSeq [9 # 10; 1 # 10]);
   ("svc", PMap [(KStr "fraud", 3 # 4)])].

(** Every model is below one half. *)
Definition all_normal : Predictions :=
  [("logistic", PSeq [9 # 10; 1 # 10]);
   ("kneighbors", PSeq [7 # 10; 3 # 10]);
   ("svc", PMap [(KStr "fraud", 1 # 4); (KStr "non_fraud", 3 # 4)]);
   ("tree", PSeq [1 # 2; 1 # 2])].

(** Every model is above one half. *)
Definition all_fraud : Predictions :=
  [("logistic", PSeq [1 # 10; 9 # 10]);
   ("kneighbors", PSeq [3 # 10; 7 # 10]);
   ("svc", PMap [(KStr "fraud", 3 # 4); (KStr "non_fraud", 1 # 4)]);
   ("tree", PSeq [2 # 5; 3 # 5])].

Definition four_fig1 : BarChart :=
  {| bar_x := ["logistic"; "kneighbors"; "svc"; "tree"];
     bar_y := [1 # 10; 7 # 10; 3 # 4; 1 # 2];
     bar_marker_color := [green; red; red; green] |}.

Definition four_fig2 : Gauge :=
  {| gauge_value := Some (1640 # 3200); gauge_bar_color := red |}.

Definition four_rows : list Row := Eval vm_compute in
    match results_df four_models with
    | inr rows => rows
    | inl _ => []
    end.

Definition inputs (method : Method) (text : string) : Inputs :=
  {| data_input_method := method;
     amount_entry := 100;
     time_entry := 3600;
     v_entry := fun _ => 0;
     json_input := text;
     analizar := true;
     visualizar := true;
     rng := fun _ => 0 |}.



(** A fifth entry beside the four models. *)
Definition five_models : Predictions :=
  (four_models ++ [("forest", PSeq [1 # 5; 4 # 5])])%list.

Fixpoint repeat_string (s : string) (n : nat) : string :=
  match n with
  | O => ""
  | S n' => s ++ repeat_string s n'
  end.

(** Three thousand opening brackets. *)
Definition deep_text : string := repeat_string "[" 3000.

(** What [json.loads] does on the texts used below: it refuses the empty
    text and any unfinished text with [JSONDecodeError], and gives up on
    [deep_text] with [RecursionError]. *)
Definition json_loads (text : string) : result Value :=
  if String.eqb text deep_text
  then raise (OtherError "RecursionError")
  else raise JSONDecodeError.

End Demo.

(** ** Facts about the Python primitives *)

Lemma four_models_keys : NoDup (dict_keys Demo.four_models).
Proof.
  repeat constructor; simpl; intuition discriminate.
Defined.

Lemma gt_half_spec (x : Q) : gt_half x = true <-> 1 # 2 < x.
Proof.
  unfold gt_half. rewrite Qlt_alt.
  destruct ((1 # 2) ?= x); split; congruence.
Qed.

Lemma gt_half_false (x : Q) : gt_half x = false <-> x <= 1 # 2.
Proof.
  split; intros H.
  - apply Qnot_lt_le. intros L. apply gt_half_spec in L. congruence.
  - destruct (gt_half x) eqn:E; [| reflexivity].
    apply gt_half_spec in E. apply Qle_not_lt in H. contradiction.
Qed.

Lemma Qmax_cases (x y : Q) : Qmax x y = x \/ Qmax x y = y.
Proof.
  unfold Qmax, GenericMinMax.gmax. destruct (x ?= y); auto.
Qed.

Lemma fold_Qmax_In (l : list Q) : forall x, In (fold_left Qmax l x) (x :: l).
Proof.
  induction l as [| y l IH]; intros x; simpl.
  - now left.
  - destruct (IH (Qmax x y)) as [H | H].
    + destruct (Qmax_cases x y) as [E | E]; rewrite E in *; auto.
    + auto.
Qed.

Lemma fold_Qmax_ge_init (l : list Q) : forall x, x <= fold_left Qmax l x.
Proof.
  induction l as [| y l IH]; intros x; simpl.
  - apply Qle_refl.
  - eapply Qle_trans; [apply (Q.le_max_l x y) | apply IH].
Qed.

Lemma fold_Qmax_upper (l : list Q) :
  forall x y, In y (x :: l) -> y <= fold_left Qmax l x.
Proof.
  induction l as [| z l IH]; intros x y Hin; simpl in *.
  - destruct Hin as [<- | []]. apply Qle_refl.
  - destruct Hin as [<- | [<- | H]].
    + eapply Qle_trans; [apply (Q.le_max_l x z) | apply fold_Qmax_ge_init].
    + eapply Qle_trans; [apply (Q.le_max_r x z) | apply fold_Qmax_ge_init].
    + apply IH. now right.
Qed.

Lemma np_max_spec (l : list Q) (m : Q) :
  np_max l = ok m -> In m l /\ forall x, In x l -> x <= m.
Proof.
  destruct l as [| x l]; simpl; intros H; [discriminate |].
  injection H as <-. split.
  - apply fold_Qmax_In.
  - intros y. apply fold_Qmax_upper.
Qed.

Lemma np_sum_four (a b c d : Q) : np_sum [a; b; c; d] == a + b + c + d.
Proof. unfold np_sum. simpl. ring. Qed.

Lemma collect_fraud_probs_length (predictions : Predictions) :
  forall fraud_probs,
    collect_fraud_probs predictions = ok fraud_probs ->
    List.length fraud_probs = List.length predictions.
Proof.
  induction predictions as [| [model pred] rest IH]; simpl; intros fs H.
  - injection H as <-. reflexivity.
  - destruct (chart_fraud_prob model pred) as [e | f]; simpl in H; [discriminate |].
    destruct (collect_fraud_probs rest) as [e | fs']; simpl in H; [discriminate |].
    injection H as <-. simpl. f_equal. now apply IH.
Qed.

Lemma dict_get_app_fresh {V} (d1 d2 : list (string * V)) (k : string) :
  ~ In k (dict_keys d1) -> dict_get (d1 ++ d2)%list k = dict_get d2 k.
Proof.
  induction d1 as [| [k' v] d1 IH]; simpl; intros H; [reflexivity |].
  destruct (String.eqb_spec k' k) as [E | _].
  - exfalso. apply H. now left.
  - apply IH. intros K. apply H. now right.
Qed.

Lemma keyed_fraud_probs_suffix (done rest : Predictions) :
  NoDup (dict_keys (done ++ rest)%list) ->
  keyed_fraud_probs (done ++ rest)%list (dict_keys rest)
  = collect_fraud_probs rest.
Proof.
  revert done. induction rest as [| [model pred] rest IH]; intros done Hnd.
  - reflexivity.
  - cbn [dict_keys map fst keyed_fraud_probs collect_fraud_probs].
    assert (Hfresh : ~ In model (dict_keys done)).
    { unfold dict_keys in *. rewrite map_app in Hnd. cbn [map fst] in Hnd.
      apply NoDup_remove_2 in Hnd. intros K. apply Hnd.
      apply in_or_app. now left. }
    rewrite (dict_get_app_fresh done _ model Hfresh).
    cbn [dict_get]. rewrite String.eqb_refl. cbn [rbind ok].
    specialize (IH (done ++ [(model, pred)])%list).
    rewrite <- app_assoc in IH. cbn [app] in IH.
    fold (dict_keys rest). rewrite (IH Hnd). reflexivity.
Qed.

(** A dict has no two items under one key, so the loop over the keys of
    [plot_predictions] reads what the loop over the items of [main]
    reads. *)
Lemma keyed_fraud_probs_items (predictions : Predictions) :
  NoDup (dict_keys predictions) ->
  keyed_fraud_probs predictions (dict_keys predictions)
  = collect_fraud_probs predictions.
Proof. intros H. apply (keyed_fraud_probs_suffix [] predictions H). Qed.

(** ** The headline: mean and maximum *)

(** C1. When the predictions mapping (a dict: no key twice) holds four
    models, the mean that
    [main] reports is the sum of the four fraud probabilities over four,
    the maximum it reports is one of them and no smaller than any of them,
    and the gauge of [plot_predictions] shows the same mean over the same
    four values. *)
Theorem headline_mean_max_of_four (predictions : Predictions) (fraud_probs : list Q) :
  NoDup (dict_keys predictions) ->
  List.length predictions = 4%nat ->
  collect_fraud_probs predictions = ok fraud_probs ->
  exists f1 f2 f3 f4 avg mx,
    fraud_probs = [f1; f2; f3; f4] /\
    headline predictions = ok (avg, mx) /\
    avg == (f1 + f2 + f3 + f4) / 4 /\
    In mx fraud_probs /\
    (forall f, In f fraud_probs -> f <= mx) /\
    exists fig1 fig2,
      plot_predictions predictions = ok (fig1, fig2) /\
      bar_y fig1 = fraud_probs /\
      gauge_value fig2 = Some avg.
Proof.
  intros Hnd Hlen Hc.
  pose proof (collect_fraud_probs_length _ _ Hc) as Hl. rewrite Hlen in Hl.
  destruct fraud_probs as [| f1 [| f2 [| f3 [| f4 [| f5 fs]]]]]; try discriminate.
  exists f1, f2, f3, f4.
  unfold headline, plot_predictions.
  rewrite (keyed_fraud_probs_items predictions Hnd), Hc. simpl.
  eexists. eexists. split; [reflexivity |]. split; [reflexivity |].
  split.
  - unfold np_sum. simpl. field.
  - split.
    + apply (fold_Qmax_In [f2; f3; f4] f1).
    + split.
      * intros f Hf. apply (fold_Qmax_upper [f2; f3; f4] f1). exact Hf.
      * eexists. eexists. split; [reflexivity |]. split; reflexivity.
Qed.

Lemma headline_mean_max_of_four_witness :
  exists f1 f2 f3 f4 avg mx,
    [1 # 10; 7 # 10; 3 # 4; 1 # 2] = [f1; f2; f3; f4] /\
    headline Demo.four_models = ok (avg, mx) /\
    avg == (f1 + f2 + f3 + f4) / 4 /\
    In mx [1 # 10; 7 # 10; 3 # 4; 1 # 2] /\
    (forall f, In f [1 # 10; 7 # 10; 3 # 4; 1 # 2] -> f <= mx) /\
    exists fig1 fig2,
      plot_predictions Demo.four_models = ok (fig1, fig2) /\
      bar_y fig1 = [1 # 10; 7 # 10; 3 # 4; 1 # 2] /\
      gauge_value fig2 = Some avg.
Proof.
  apply (headline_mean_max_of_four Demo.four_models).
  - apply four_models_keys.
  - reflexivity.
  - reflexivity.
Defined.

(** ** The alert *)

Lemma metrics_from_log {predictions : Predictions} (names_keys : list (string * string)) :
  forall i log,
  exists r ms,
    metrics_from predictions i names_keys log = (r, (log ++ ms)%list) /\
    forallb metric_or_error ms = true /\
    (forall e, r = inl e -> exists key, In key (map snd names_keys) /\
                                         panel_probs predictions key = inl e).
Proof.
  induction names_keys as [| [display_name key] rest IH]; intros i log.
  - exists (ok tt), []. cbn. rewrite app_nil_r. repeat split. intros e H. discriminate.
  - cbn [metrics_from]. unfold mbind, lift.
    destruct (panel_probs predictions key) as [e | probs] eqn:E.
    + exists (inl e), []. rewrite app_nil_r. repeat split.
      intros e' H. injection H as <-. exists key. split; [now left | exact E].
    + unfold emit at 1.
      destruct (IH (S i) (log ++ [StMetric (i mod 2) display_name (snd probs) (fst probs)])%list)
        as (r & ms & Hrun & Hq & He).
      exists r, (StMetric (i mod 2) display_name (snd probs) (fst probs) :: ms).
      rewrite Hrun, <- app_assoc. repeat split.
      * exact Hq.
      * intros e H. destruct (He e H) as (k & Hk & Hp). exists k. split; [now right | exact Hp].
Qed.

Section Analysis.

Variable Models : Type.
Variable process_transaction : Value -> Models -> result Predictions.

(** The log of the analysis button once the models have answered and the
    headline could be computed: the call, the banner, then metrics and at
    most one error. *)
Lemma analizar_transaccion_log (data : Value) (models : Models)
    (predictions : Predictions) (avg mx : Q) (log : list UI) :
  process_transaction data models = ok predictions ->
  headline predictions = ok (avg, mx) ->
  exists rest,
    analizar_transaccion Models process_transaction data models log
    = (ok tt, (log ++ Invoked data :: alert avg mx :: rest)%list) /\
    forallb metric_or_error rest = true.
Proof.
  intros Hp Hh.
  unfold analizar_transaccion, try_except, call_process_transaction, mbind, lift, emit.
  rewrite Hp. unfold ok in *. cbn beta iota. rewrite Hh. cbn beta iota delta [fst snd].
  unfold metrics_panel.
  destruct (metrics_from_log (predictions := predictions)
              (combine model_names model_keys) 0
              ((log ++ [Invoked data]) ++ [alert avg mx])%list)
    as (r & ms & Hrun & Hq & _).
  rewrite Hrun. destruct r as [e | []].
  - exists (ms ++ [StError "Error al procesar la transacción: " (Some e)])%list.
    split.
    + f_equal. rewrite <- !app_assoc. reflexivity.
    + rewrite forallb_app, Hq. reflexivity.
  - exists ms. split; [| exact Hq].
    f_equal. rewrite <- !app_assoc. reflexivity.
Qed.

End Analysis.

Lemma alerts_quiet (ms : list UI) :
  forallb metric_or_error ms = true -> alerts ms = [].
Proof.
  induction ms as [| u ms IH]; simpl; intros H; [reflexivity |].
  apply andb_prop in H as [Hu Hms].
  destruct u; simpl in *; try discriminate; auto.
Qed.

Lemma alert_cases (avg mx : Q) :
  (alert avg mx = FraudAlert avg mx /\ 1 # 2 < avg) \/
  (alert avg mx = SafeAlert avg mx /\ avg <= 1 # 2).
Proof.
  unfold alert. destruct (gt_half avg) eqn:E.
  - left. split; [reflexivity | now apply gt_half_spec].
  - right. split; [reflexivity | now apply gt_half_false].
Qed.

(** C2. Once the models have answered and the headline is computed, the
    analysis draws exactly one banner; it is the fraud alert exactly when
    the mean is strictly above one half, and the safe banner otherwise, a
    mean of exactly one half included. *)
Theorem fraud_alert_iff_mean_above_half (Models : Type)
    (process_transaction : Value -> Models -> result Predictions)
    (data : Value) (models : Models) (predictions : Predictions) (avg mx : Q) :
  process_transaction data models = ok predictions ->
  headline predictions = ok (avg, mx) ->
  let log := snd (analizar_transaccion Models process_transaction data models []) in
  (alerts log = [FraudAlert avg mx] <-> 1 # 2 < avg) /\
  (alerts log = [SafeAlert avg mx] <-> avg <= 1 # 2) /\
  (avg == 1 # 2 -> alerts log = [SafeAlert avg mx]).
Proof.
  intros Hp Hh log.
  destruct (analizar_transaccion_log Models process_transaction data models
              predictions avg mx [] Hp Hh) as (rest & Hrun & Hq).
  assert (Hal : alerts log = [alert avg mx]).
  { subst log. rewrite Hrun. cbn [snd app].
    change (alerts (Invoked data :: alert avg mx :: rest))
      with (alerts (alert avg mx :: rest)).
    assert (Hb : alerts (alert avg mx :: rest) = alert avg mx :: alerts rest).
    { unfold alert. destruct (gt_half avg); reflexivity. }
    rewrite Hb, (alerts_quiet rest Hq). reflexivity. }
  rewrite Hal.
  destruct (alert_cases avg mx) as [[E L] | [E L]]; rewrite E.
  - split; [| split].
    + split; auto.
    + split; [discriminate |]. intros H. apply Qle_not_lt in H. contradiction.
    + intros H. rewrite H in L. discriminate.
  - split; [| split].
    + split; [discriminate |]. intros H. apply Qle_not_lt in L. contradiction.
    + split; auto.
    + auto.
Qed.

Lemma fraud_alert_iff_mean_above_half_witness :
  let log := snd (analizar_transaccion unit (fun _ _ => ok Demo.mean_half)
                    VNone tt []) in
  (alerts log = [FraudAlert (3200 # 6400) (9 # 10)] <-> 1 # 2 < 3200 # 6400) /\
  (alerts log = [SafeAlert (3200 # 6400) (9 # 10)] <-> 3200 # 6400 <= 1 # 2) /\
  (3200 # 6400 == 1 # 2 -> alerts log = [SafeAlert (3200 # 6400) (9 # 10)]).
Proof.
  apply (fraud_alert_iff_mean_above_half unit (fun _ _ => ok Demo.mean_half)
           VNone tt Demo.mean_half (3200 # 6400) (9 # 10)).
  - reflexivity.
  - vm_compute. reflexivity.
Defined.

(** ** One normalization rule at the three sites *)

Lemma results_df_fraud_column (predictions : Predictions) :
  forall rows,
    results_df predictions = ok rows ->
    collect_fraud_probs predictions = ok (map Probabilidad_Fraude rows).
Proof.
  induction predictions as [| [model pred] rest IH]; simpl; intros rows H.
  - injection H as <-. reflexivity.
  - unfold table_probs, chart_fraud_prob in *.
    destruct (String.eqb model "svc").
    + destruct (subscript pred (KStr "non_fraud")) as [e | n]; simpl in H; [discriminate |].
      destruct (subscript pred (KStr "fraud")) as [e | f]; simpl in H; [discriminate |].
      destruct (results_df rest) as [e | rows']; simpl in H; [discriminate |].
      injection H as <-. simpl. rewrite (IH rows' eq_refl). reflexivity.
    + destruct (subscript pred (KInt 0)) as [e | n]; simpl in H; [discriminate |].
      destruct (subscript pred (KInt 1)) as [e | f]; simpl in H; [discriminate |].
      destruct (results_df rest) as [e | rows']; simpl in H; [discriminate |].
      injection H as <-. simpl. rewrite (IH rows' eq_refl). reflexivity.
Qed.

Lemma table_probs_rule (key : string) (pred : Pred) (n f : Q) :
  table_probs key pred = ok (n, f) <-> Design.canonical_pair key pred = Some (n, f).
Proof.
  unfold Design.canonical_pair, table_probs, rbind, ok.
  destruct (String.eqb key "svc").
  - destruct (subscript pred (KStr "non_fraud")) as [e1 | n'];
      destruct (subscript pred (KStr "fraud")) as [e2 | f'];
      split; intros H; try discriminate; congruence.
  - destruct (subscript pred (KInt 0)) as [e1 | n'];
      destruct (subscript pred (KInt 1)) as [e2 | f'];
      split; intros H; try discriminate; congruence.
Qed.

Lemma panel_probs_rule (predictions : Predictions) (key : string) (pred : Pred)
    (n f : Q) :
  dict_get predictions key = ok pred ->
  (panel_probs predictions key = ok (n, f)
   <-> Design.canonical_pair key pred = Some (n, f)).
Proof.
  intros Hget. unfold Design.canonical_pair, panel_probs.
  rewrite Hget. unfold rbind, ok.
  destruct (String.eqb key "svc").
  - destruct (subscript pred (KStr "non_fraud")) as [e1 | n'];
      destruct (subscript pred (KStr "fraud")) as [e2 | f'];
      split; intros H; try discriminate; congruence.
  - destruct (subscript pred (KInt 0)) as [e1 | n'];
      destruct (subscript pred (KInt 1)) as [e2 | f'];
      split; intros H; try discriminate; congruence.
Qed.

Lemma chart_fraud_prob_rule (key : string) (pred : Pred) (f : Q) :
  chart_fraud_prob key pred = ok f <-> Design.canonical_fraud key pred = Some f.
Proof.
  unfold Design.canonical_fraud, chart_fraud_prob, ok.
  destruct (String.eqb key "svc").
  - destruct (subscript pred (KStr "fraud")); split; intros H;
      try discriminate; congruence.
  - destruct (subscript pred (KInt 1)); split; intros H;
      try discriminate; congruence.
Qed.

Lemma canonical_pair_fraud (key : string) (pred : Pred) (n f : Q) :
  Design.canonical_pair key pred = Some (n, f) ->
  Design.canonical_fraud key pred = Some f.
Proof.
  unfold Design.canonical_pair, Design.canonical_fraud.
  destruct (String.eqb key "svc").
  - destruct (subscript pred (KStr "non_fraud")); [discriminate |].
    destruct (subscript pred (KStr "fraud")); [discriminate |]. congruence.
  - destruct (subscript pred (KInt 0)); [discriminate |].
    destruct (subscript pred (KInt 1)); [discriminate |]. congruence.
Qed.

(** Every row of the table comes from the entry at the same place in the
    mapping. *)
Lemma results_df_rows (predictions : Predictions) :
  forall rows,
    results_df predictions = ok rows ->
    Forall2 (fun entry row =>
               table_probs (fst entry) (snd entry)
               = ok (Probabilidad_Normal row, Probabilidad_Fraude row) /\
               Modelo row = title (replace_underscore (fst entry)) /\
               Prediccion row = prediccion (Probabilidad_Fraude row))
            predictions rows.
Proof.
  induction predictions as [| [model pred] rest IH]; simpl; intros rows H.
  - injection H as <-. constructor.
  - destruct (table_probs model pred) as [e | [n f]] eqn:E; simpl in H; [discriminate |].
    destruct (results_df rest) as [e | rows']; simpl in H; [discriminate |].
    injection H as <-. constructor; [| now apply IH].
    cbn [fst snd Probabilidad_Normal Probabilidad_Fraude Modelo Prediccion].
    split; [exact E | split; reflexivity].
Qed.

(** The table can be built as soon as every entry can be read. *)
Lemma results_df_total (predictions : Predictions) :
  (forall entry, In entry predictions ->
     exists n f, table_probs (fst entry) (snd entry) = ok (n, f)) ->
  exists rows, results_df predictions = ok rows.
Proof.
  induction predictions as [| [model pred] rest IH]; intros Hall.
  - exists []. reflexivity.
  - destruct (Hall (model, pred) (or_introl eq_refl)) as (n & f & E).
    destruct IH as [rows' Hr]; [intros entry Hin; apply Hall; now right |].
    cbn [results_df]. cbn [fst snd] in E. rewrite E, Hr.
    eexists. reflexivity.
Qed.

Lemma panel_probs_ext (p1 p2 : Predictions) (key : string) :
  dict_get p1 key = dict_get p2 key -> panel_probs p1 key = panel_probs p2 key.
Proof. intros H. unfold panel_probs. rewrite H. reflexivity. Qed.

(** The three sites do not always render the same probabilities. When the
    [svc] entry holds its fraud field only, the chart draws its bar while
    the table and the panel raise; and with a fifth entry in the mapping
    the chart and the table show five values and the panel four. *)
Lemma sites_render_differently :
  (Design.canonical_pair "svc" (PMap [(KStr "fraud", 3 # 4)]) = None /\
   (exists fig1 fig2,
       plot_predictions Demo.svc_fraud_only = ok (fig1, fig2) /\
       bar_y fig1 = [1 # 10; 3 # 4]) /\
   results_df Demo.svc_fraud_only = raise (KeyError (KStr "non_fraud")) /\
   panel_probs Demo.svc_fraud_only "svc" = raise (KeyError (KStr "non_fraud"))) /\
  ((exists fig1 fig2,
       plot_predictions Demo.five_models = ok (fig1, fig2) /\
       List.length (bar_y fig1) = 5%nat) /\
   (exists rows,
       results_df Demo.five_models = ok rows /\ List.length rows = 5%nat) /\
   List.length (metrics (snd (metrics_panel Demo.five_models []))) = 4%nat).
Proof.
  split; [split; [| split; [| split]] | split; [| split]].
  - reflexivity.
  - eexists. eexists. split; vm_compute; reflexivity.
  - reflexivity.
  - reflexivity.
  - eexists. eexists. split; vm_compute; reflexivity.
  - eexists. split; vm_compute; reflexivity.
  - vm_compute. reflexivity.
Qed.

(** C3, amended. On a predictions dict: for the entry under a key, the
    metrics panel and the detail table obtain a pair exactly when the rule
    (named fields [non_fraud] and [fraud] for [svc], positions 0 and 1
    otherwise) yields it, and it is that pair; the bar chart obtains a
    value exactly when the fraud half of the rule yields it, which it does
    whenever the rule yields a pair. Whenever the table can be built the
    chart is built too, with one bar per key of the mapping in the
    mapping's order, the bars being the fraud column of the table and every
    row holding the pair of the rule for the entry at its place. The panel
    reads the four model keys only: entries under other keys do not change
    what it renders. *)
Theorem consumer_sites_share_rule (predictions : Predictions) :
  NoDup (dict_keys predictions) ->
  (forall key pred,
      dict_get predictions key = ok pred ->
      forall n f,
        (panel_probs predictions key = ok (n, f)
         <-> Design.canonical_pair key pred = Some (n, f)) /\
        (table_probs key pred = ok (n, f)
         <-> Design.canonical_pair key pred = Some (n, f)) /\
        (chart_fraud_prob key pred = ok f
         <-> Design.canonical_fraud key pred = Some f) /\
        (Design.canonical_pair key pred = Some (n, f)
         -> chart_fraud_prob key pred = ok f)) /\
  (forall rows,
      results_df predictions = ok rows ->
      exists fig1 fig2,
        plot_predictions predictions = ok (fig1, fig2) /\
        bar_x fig1 = dict_keys predictions /\
        bar_y fig1 = map Probabilidad_Fraude rows /\
        Forall2 (fun entry row =>
                   Design.canonical_pair (fst entry) (snd entry)
                   = Some (Probabilidad_Normal row, Probabilidad_Fraude row))
                predictions rows) /\
  (forall others log,
      (forall key, In key model_keys ->
                   dict_get others key = dict_get predictions key) ->
      metrics_panel others log = metrics_panel predictions log).
Proof.
  intros Hnd. split; [| split].
  - intros key pred Hget n f. split; [| split; [| split]].
    + apply (panel_probs_rule _ _ _ _ _ Hget).
    + apply table_probs_rule.
    + apply chart_fraud_prob_rule.
    + intros H. apply chart_fraud_prob_rule. now apply (canonical_pair_fraud _ _ n).
  - intros rows Hrows. unfold plot_predictions.
    rewrite (keyed_fraud_probs_items predictions Hnd).
    rewrite (results_df_fraud_column _ _ Hrows). cbn [rbind].
    eexists. eexists. split; [reflexivity |].
    cbn [bar_x bar_y]. split; [reflexivity |]. split; [reflexivity |].
    eapply Forall2_impl; [| apply (results_df_rows _ _ Hrows)].
    intros entry row (Ht & _ & _). now apply table_probs_rule.
  - intros others log Hsame.
    unfold metrics_panel, model_names, model_keys in *.
    cbn [combine metrics_from]. unfold mbind, lift.
    rewrite (panel_probs_ext others predictions "logistic")
      by (apply Hsame; simpl; auto).
    rewrite (panel_probs_ext others predictions "kneighbors")
      by (apply Hsame; simpl; auto).
    rewrite (panel_probs_ext others predictions "svc")
      by (apply Hsame; simpl; auto).
    rewrite (panel_probs_ext others predictions "tree")
      by (apply Hsame; simpl; auto).
    reflexivity.
Qed.

Lemma consumer_sites_share_rule_witness :
  (forall key pred,
      dict_get Demo.four_models key = ok pred ->
      forall n f,
        (panel_probs Demo.four_models key = ok (n, f)
         <-> Design.canonical_pair key pred = Some (n, f)) /\
        (table_probs key pred = ok (n, f)
         <-> Design.canonical_pair key pred = Some (n, f)) /\
        (chart_fraud_prob key pred = ok f
         <-> Design.canonical_fraud key pred = Some f) /\
        (Design.canonical_pair key pred = Some (n, f)
         -> chart_fraud_prob key pred = ok f)) /\
  (forall rows,
      results_df Demo.four_models = ok rows ->
      exists fig1 fig2,
        plot_predictions Demo.four_models = ok (fig1, fig2) /\
        bar_x fig1 = dict_keys Demo.four_models /\
        bar_y fig1 = map Probabilidad_Fraude rows /\
        Forall2 (fun entry row =>
                   Design.canonical_pair (fst entry) (snd entry)
                   = Some (Probabilidad_Normal row, Probabilidad_Fraude row))
                Demo.four_models rows) /\
  (forall others log,
      (forall key, In key model_keys ->
                   dict_get others key = dict_get Demo.four_models key) ->
      metrics_panel others log = metrics_panel Demo.four_models log).
Proof.
  apply (consumer_sites_share_rule Demo.four_models).
  apply four_models_keys.
Defined.

(** ** The labels of the detail table *)

Lemma prediccion_cases (fraud_prob : Q) :
  (prediccion fraud_prob = "FRAUDE" /\ 1 # 2 < fraud_prob) \/
  (prediccion fraud_prob = "NORMAL" /\ fraud_prob <= 1 # 2).
Proof.
  unfold prediccion. destruct (gt_half fraud_prob) eqn:E.
  - left. split; [reflexivity | now apply gt_half_spec].
  - right. split; [reflexivity | now apply gt_half_false].
Qed.

Lemma results_df_labels (predictions : Predictions) :
  forall rows,
    results_df predictions = ok rows ->
    Forall (fun r => Prediccion r = prediccion (Probabilidad_Fraude r)) rows.
Proof.
  induction predictions as [| [model pred] rest IH]; simpl; intros rows H.
  - injection H as <-. constructor.
  - destruct (table_probs model pred) as [e | probs]; simpl in H; [discriminate |].
    destruct (results_df rest) as [e | rows']; simpl in H; [discriminate |].
    injection H as <-. constructor; [reflexivity | now apply IH].
Qed.

(** C9. The detail table has one row per entry of the mapping, in the
    mapping's order, and the row of a model is labelled [FRAUDE] exactly
    when the fraud probability read from that model's entry is strictly
    above one half and [NORMAL] otherwise; the table is built as soon as
    every entry can be read. The label does not follow the alert on the
    mean: a safe banner can stand over a [FRAUDE] row and a fraud alert
    over a [NORMAL] row. *)
Theorem table_label_per_model (predictions : Predictions) (rows : list Row) :
  results_df predictions = ok rows ->
  Forall2 (fun entry row =>
             exists n f,
               table_probs (fst entry) (snd entry) = ok (n, f) /\
               chart_fraud_prob (fst entry) (snd entry) = ok f /\
               Probabilidad_Normal row = n /\
               Probabilidad_Fraude row = f /\
               (Prediccion row = "FRAUDE" <-> 1 # 2 < f) /\
               (Prediccion row = "NORMAL" <-> f <= 1 # 2) /\
               (Prediccion row = "FRAUDE" \/ Prediccion row = "NORMAL"))
          predictions rows /\
  ((forall entry, In entry predictions ->
      exists n f, table_probs (fst entry) (snd entry) = ok (n, f)) ->
   exists rs, results_df predictions = ok rs) /\
  (exists p avg mx rs,
      headline p = ok (avg, mx) /\ alert avg mx = SafeAlert avg mx /\
      results_df p = ok rs /\ Exists (fun r => Prediccion r = "FRAUDE") rs) /\
  (exists p avg mx rs,
      headline p = ok (avg, mx) /\ alert avg mx = FraudAlert avg mx /\
      results_df p = ok rs /\ Exists (fun r => Prediccion r = "NORMAL") rs).
Proof.
  intros H. split; [| split; [| split]].
  - eapply Forall2_impl; [| apply (results_df_rows _ _ H)].
    intros entry row (Ht & _ & Hl).
    exists (Probabilidad_Normal row), (Probabilidad_Fraude row).
    split; [exact Ht |].
    split.
    { apply chart_fraud_prob_rule.
      apply (canonical_pair_fraud _ _ (Probabilidad_Normal row)).
      now apply table_probs_rule. }
    split; [reflexivity |]. split; [reflexivity |].
    rewrite Hl.
    destruct (prediccion_cases (Probabilidad_Fraude row)) as [[L G] | [L G]];
      rewrite L; repeat split; auto; try discriminate.
    + intros K. apply Qle_not_lt in K. contradiction.
    + intros K. apply Qle_not_lt in G. contradiction.
  - apply results_df_total.
  - exists Demo.mean_half. do 3 eexists.
    split; [vm_compute; reflexivity |].
    split; [reflexivity |].
    split; [vm_compute; reflexivity |].
    apply Exists_cons_hd. reflexivity.
  - exists Demo.mostly_fraud. do 3 eexists.
    split; [vm_compute; reflexivity |].
    split; [reflexivity |].
    split; [vm_compute; reflexivity |].
    do 3 apply Exists_cons_tl. apply Exists_cons_hd. reflexivity.
Qed.

Lemma table_label_per_model_witness :
  Forall2 (fun entry row =>
             exists n f,
               table_probs (fst entry) (snd entry) = ok (n, f) /\
               chart_fraud_prob (fst entry) (snd entry) = ok f /\
               Probabilidad_Normal row = n /\
               Probabilidad_Fraude row = f /\
               (Prediccion row = "FRAUDE" <-> 1 # 2 < f) /\
               (Prediccion row = "NORMAL" <-> f <= 1 # 2) /\
               (Prediccion row = "FRAUDE" \/ Prediccion row = "NORMAL"))
          Demo.four_models Demo.four_rows /\
  ((forall entry, In entry Demo.four_models ->
      exists n f, table_probs (fst entry) (snd entry) = ok (n, f)) ->
   exists rs, results_df Demo.four_models = ok rs) /\
  (exists p avg mx rs,
      headline p = ok (avg, mx) /\ alert avg mx = SafeAlert avg mx /\
      results_df p = ok rs /\ Exists (fun r => Prediccion r = "FRAUDE") rs) /\
  (exists p avg mx rs,
      headline p = ok (avg, mx) /\ alert avg mx = FraudAlert avg mx /\
      results_df p = ok rs /\ Exists (fun r => Prediccion r = "NORMAL") rs).
Proof.
  apply (table_label_per_model Demo.four_models Demo.four_rows). reflexivity.
Defined.

(** ** Control flow of [main] *)

Lemma invocations_app (l1 l2 : list UI) :
  invocations (l1 ++ l2) = (invocations l1 ++ invocations l2)%list.
Proof. apply flat_map_app. Qed.

Lemma invocations_quiet (ms : list UI) :
  forallb metric_or_error ms = true -> invocations ms = [].
Proof.
  induction ms as [| u ms IH]; simpl; intros H; [reflexivity |].
  apply andb_prop in H as [Hu Hms].
  destruct u; simpl in *; try discriminate; auto.
Qed.

Lemma invocations_alert (avg mx : Q) (l : list UI) :
  invocations (alert avg mx :: l) = invocations l.
Proof. unfold alert. destruct (gt_half avg); reflexivity. Qed.

Lemma mbind_ok {A B} (m : M A) (f : A -> M B) (log log' : list UI) (a : A) :
  m log = (inr a, log') -> mbind m f log = f a log'.
Proof. intros H. unfold mbind. rewrite H. reflexivity. Qed.

Section Control.

Variable Models : Type.
Variable models_len : Models -> nat.
Variable process_transaction : Value -> Models -> result Predictions.
Variable json_loads : string -> result Value.

(** The analysis button never lets an exception out and calls the models
    once, on the transaction it was given. *)
Lemma analizar_transaccion_run (data : Value) (models : Models)
    (log : list UI) :
  exists rest,
    analizar_transaccion Models process_transaction data models log
    = (ok tt, (log ++ rest)%list) /\
    invocations rest = [data].
Proof.
  destruct (process_transaction data models) as [e | predictions] eqn:Hp.
  - unfold analizar_transaccion, try_except, call_process_transaction, mbind, lift, emit.
    rewrite Hp. unfold ok. cbn beta iota. rewrite <- app_assoc.
    eexists. split; reflexivity.
  - destruct (headline predictions) as [e | [avg mx]] eqn:Hh.
    + unfold analizar_transaccion, try_except, call_process_transaction, mbind, lift, emit.
      rewrite Hp. unfold ok. cbn beta iota. rewrite Hh. rewrite <- app_assoc.
      eexists. split; reflexivity.
    + destruct (analizar_transaccion_log Models process_transaction data models
                  predictions avg mx log Hp Hh) as (rest & Hrun & Hq).
      eexists. split; [exact Hrun |].
      change (invocations (Invoked data :: alert avg mx :: rest))
        with (data :: invocations (alert avg mx :: rest)).
      rewrite invocations_alert, (invocations_quiet rest Hq). reflexivity.
Qed.

(** So does the visualisation button. *)
Lemma generar_visualizaciones_run (data : Value) (models : Models)
    (log : list UI) :
  exists rest,
    generar_visualizaciones Models process_transaction data models log
    = (ok tt, (log ++ rest)%list) /\
    invocations rest = [data].
Proof.
  unfold generar_visualizaciones, try_except, call_process_transaction, mbind, lift, emit.
  unfold ok. cbn beta iota.
  destruct (process_transaction data models) as [e | predictions].
  - rewrite <- app_assoc. eexists. split; reflexivity.
  - destruct (plot_predictions predictions) as [e | figs].
    + rewrite <- app_assoc. eexists. split; reflexivity.
    + destruct (results_df predictions) as [e | rows];
        rewrite <- !app_assoc; eexists; split; reflexivity.
Qed.

(** Once the models are loaded and the left column has produced a
    transaction, [main] ends without an exception, keeps what the left
    column rendered, and calls the models on that transaction only, once
    per button pressed. *)
Lemma main_after_input (models : Models) (i : Inputs) (data : Value)
    (log1 : list UI) :
  input_section json_loads i
    [StSuccess (loaded_msg (models_len models))] = (ok data, log1) ->
  exists rest,
    main Models models_len (ok models) process_transaction json_loads i []
    = (ok tt, (log1 ++ rest)%list) /\
    invocations rest = (clicked (analizar i) data ++ clicked (visualizar i) data)%list.
Proof.
  intros Hin. unfold main.
  rewrite (mbind_ok _ _ [] [] (Some models)) by reflexivity.
  rewrite (mbind_ok _ _ [] [StSuccess (loaded_msg (models_len models))] tt)
    by reflexivity.
  rewrite (mbind_ok _ _ _ log1 data) by exact Hin.
  destruct (analizar i); destruct (visualizar i); cbn [clicked].
  - destruct (analizar_transaccion_run data models log1) as (r2 & H2 & I2).
    destruct (generar_visualizaciones_run data models (log1 ++ r2)) as (r3 & H3 & I3).
    rewrite (mbind_ok _ _ _ _ tt H2), H3, <- app_assoc.
    eexists. split; [reflexivity |].
    rewrite invocations_app, I2, I3. reflexivity.
  - destruct (analizar_transaccion_run data models log1) as (r2 & H2 & I2).
    rewrite (mbind_ok _ _ _ _ tt H2). unfold mret.
    eexists. split; [reflexivity |]. rewrite I2. reflexivity.
  - rewrite (mbind_ok _ _ log1 log1 tt) by reflexivity.
    destruct (generar_visualizaciones_run data models log1) as (r3 & H3 & I3).
    rewrite H3. eexists. split; [reflexivity |]. rewrite I3. reflexivity.
  - rewrite (mbind_ok _ _ log1 log1 tt) by reflexivity.
    exists []. rewrite app_nil_r. split; reflexivity.
Qed.

End Control.





(** C8. When [load_models] raises, whatever the exception and whatever the
    user did, [main] shows the two loading errors and returns: nothing else
    is rendered and [process_transaction] is not called. *)
Theorem load_failure_blocks_scoring (Models : Type) (models_len : Models -> nat)
    (process_transaction : Value -> Models -> result Predictions)
    (json_loads : string -> result Value) (e : Exn) (i : Inputs) :
  main Models models_len (raise e) process_transaction json_loads i []
  = (ok tt,
     [StError "Error al cargar los modelos: " (Some e);
      StError no_models_msg None]) /\
  invocations
    (snd (main Models models_len (raise e) process_transaction json_loads i []))
  = [].
Proof. split; reflexivity. Qed.

(** ** The canned transactions *)

(** C10. Whatever the random generator draws, both canned transactions
    hold the thirty keys [amount], [time], [v1..v28] in that order, an
    amount above zero and an integer time between 0 and 86400; the
    validator of the design and the bounds of the manual form accept
    them. *)
Theorem canned_examples_acceptable (rng : nat -> Q) :
  Design.acceptable (create_sample_transaction rng) /\
  Design.acceptable (create_fraud_sample rng).
Proof.
  split.
  - unfold Design.acceptable, create_sample_transaction.
    eexists. exists (201 # 2), 3600%Z.
    split; [reflexivity |].
    split; [vm_compute; reflexivity |].
    split; [vm_compute; reflexivity |].
    split; [vm_compute; reflexivity |].
    split; [reflexivity |].
    split; [vm_compute; reflexivity |].
    split; [lia |].
    split; [reflexivity |].
    eexists. vm_compute. reflexivity.
  - unfold Design.acceptable, create_fraud_sample.
    eexists. exists 5000, 25200%Z.
    split; [reflexivity |].
    split; [vm_compute; reflexivity |].
    split; [vm_compute; reflexivity |].
    split; [vm_compute; reflexivity |].
    split; [reflexivity |].
    split; [vm_compute; reflexivity |].
    split; [lia |].
    split; [reflexivity |].
    eexists. vm_compute. reflexivity.
Qed.

(** ** The bounds of the manual form *)

Lemma within_amount (x : Q) :
  within (Some amount_min_value) None x = true <-> 1 # 100 <= x.
Proof.
  unfold within, amount_min_value. rewrite andb_true_r. apply Qle_bool_iff.
Qed.

Lemma within_time (t : Z) :
  within_int time_min_value time_max_value t = true <-> (0 <= t <= 86400)%Z.
Proof.
  unfold within_int, time_min_value, time_max_value.
  rewrite andb_true_iff, !Z.leb_le. reflexivity.
Qed.

(** The acceptance condition of the specification does not hold of the
    manual form at an amount of zero: the specification accepts it, the
    amount field refuses it. *)
Lemma amount_zero_refused_by_form :
  ~ (manual_accepts 0 3600 = true <-> Design.claimed_range_ok 0 3600).
Proof.
  intros [_ H].
  assert (C : Design.claimed_range_ok 0 3600).
  { unfold Design.claimed_range_ok. split; [apply Qle_refl | lia]. }
  specialize (H C). vm_compute in H. discriminate.
Qed.

(** C6, amended. The manual form takes the two bounded entries as they are
    exactly when the amount is at least 0.01 and the time is an integer
    from 0 to 86400; the transaction it builds always has the thirty keys
    [amount], [time], [v1..v28], an amount of at least 0.01 and a time
    within the day, an entry out of bounds being replaced by the value the
    field holds. So the times 0 and 86400 pass, and the times -1 and 86401
    and the amounts -0.01 and 0 do not. *)
Theorem manual_form_bounds (i : Inputs) :
  (manual_accepts (amount_entry i) (time_entry i) = true
   <-> 1 # 100 <= amount_entry i /\ (0 <= time_entry i <= 86400)%Z) /\
  (exists items amount time,
      manual_form i = VDict items /\
      dict_keys items = Design.required_keys /\
      dict_get items "amount" = ok (VFloat amount) /\
      dict_get items "time" = ok (VInt time) /\
      amount = (if Qle_bool (1 # 100) (amount_entry i)
                then amount_entry i else 100) /\
      time = (if within_int 0 86400 (time_entry i)
              then time_entry i else 3600%Z) /\
      1 # 100 <= amount /\ (0 <= time <= 86400)%Z) /\
  manual_accepts 100 0 = true /\
  manual_accepts 100 86400 = true /\
  manual_accepts 100 (-1) = false /\
  manual_accepts 100 86401 = false /\
  manual_accepts (- (1 # 100)) 3600 = false /\
  manual_accepts 0 3600 = false /\
  manual_accepts (1 # 100) 3600 = true.
Proof.
  split; [| split; [| repeat split]].
  - unfold manual_accepts. rewrite andb_true_iff, within_amount, within_time.
    reflexivity.
  - unfold manual_form.
    set (amount := number_input (Some amount_min_value) None 100 (amount_entry i)).
    set (time := number_input_int time_min_value time_max_value 3600 (time_entry i)).
    assert (Ha : amount = (if Qle_bool (1 # 100) (amount_entry i)
                           then amount_entry i else 100)).
    { subst amount. unfold number_input, within, amount_min_value.
      rewrite andb_true_r. reflexivity. }
    assert (Ht : time = (if within_int 0 86400 (time_entry i)
                         then time_entry i else 3600%Z)) by reflexivity.
    assert (Hab : 1 # 100 <= amount).
    { rewrite Ha. destruct (Qle_bool (1 # 100) (amount_entry i)) eqn:E.
      - now apply Qle_bool_iff.
      - discriminate. }
    assert (Htb : (0 <= time <= 86400)%Z).
    { rewrite Ht. destruct (within_int 0 86400 (time_entry i)) eqn:E.
      - now apply within_time.
      - lia. }
    clearbody amount time.
    set (vf := fun n => VFloat (number_input None None 0 (v_entry i n))).
    change (fun d n => dict_set d (v_key n)
                         (VFloat (number_input None None 0 (v_entry i n))))
      with (fun d n => dict_set d (v_key n) (vf n)).
    clearbody vf.
    eexists. exists amount, time.
    split; [reflexivity |].
    split; [vm_compute; reflexivity |].
    split; [vm_compute; reflexivity |].
    split; [vm_compute; reflexivity |].
    auto.
Qed.

(** The JSON branch hands on whatever [json.loads] returns: the file checks
    neither the keys nor the ranges of a pasted transaction. *)
Lemma json_input_unchecked (json_loads : string -> result Value) (i : Inputs)
    (data : Value) (log : list UI) :
  data_input_method i = JSON ->
  json_input i <> "" ->
  json_loads (json_input i) = ok data ->
  input_section json_loads i log
  = (ok data, (log ++ [StSuccess "✅ JSON válido"])%list).
Proof.
  intros Hm Hne Hok. unfold input_section. rewrite Hm.
  destruct (String.eqb_spec (json_input i) "") as [E | _]; [contradiction |].
  unfold try_except_json, mbind, lift, emit, mret. rewrite Hok. reflexivity.
Qed.

(** ** Exceptions in the analysis *)

(** When [process_transaction] raises, the analysis shows the exception and
    nothing else: no banner, no metric. *)
Lemma analizar_transaccion_on_exception (Models : Type)
    (process_transaction : Value -> Models -> result Predictions)
    (data : Value) (models : Models) (e : Exn) :
  process_transaction data models = raise e ->
  analizar_transaccion Models process_transaction data models []
  = (ok tt, [Invoked data;
             StError "Error al procesar la transacción: " (Some e)]).
Proof.
  intros H.
  unfold analizar_transaccion, try_except, call_process_transaction, mbind, lift, emit.
  rewrite H. reflexivity.
Qed.

(** The readers of [main] take positions 0 and 1 of a longer sequence as
    they come: here [tree] answers with three numbers and the headline is
    computed all the same. *)
Example headline_reads_longer_sequence :
  headline [("logistic", PSeq [9 # 10; 1 # 10]);
            ("kneighbors", PSeq [3 # 10; 7 # 10]);
            ("svc", PMap [(KStr "fraud", 3 # 4); (KStr "non_fraud", 1 # 4)]);
            ("tree", PSeq [1 # 10; 2 # 10; 7 # 10])]
  = ok (7000 # 16000, 3 # 4).
Proof. vm_compute. reflexivity. Qed.

(** ** Further properties of the headline *)

Lemma headline_inv (predictions : Predictions) (avg mx : Q) :
  headline predictions = ok (avg, mx) ->
  exists fraud_probs,
    collect_fraud_probs predictions = ok fraud_probs /\
    np_mean fraud_probs = Some avg /\
    np_max fraud_probs = ok mx.
Proof.
  unfold headline. intros H.
  destruct (collect_fraud_probs predictions) as [e | fs]; [discriminate |].
  exists fs. split; [reflexivity |]. cbn [rbind] in H.
  destruct (np_max fs) as [e | m]; [discriminate |]. cbn [rbind] in H.
  destruct (np_mean fs) as [a |]; [| discriminate].
  injection H as <- <-. split; reflexivity.
Qed.

Lemma fold_Qplus_le (c : Q) (l : list Q) :
  (forall x, In x l -> x <= c) ->
  forall a, fold_left Qplus l a <= a + c * inject_Z (Z.of_nat (List.length l)).
Proof.
  induction l as [| y l IH]; intros Hall a.
  - simpl. setoid_replace (a + c * inject_Z 0) with a by ring. apply Qle_refl.
  - cbn [fold_left List.length]. rewrite Nat2Z.inj_succ. unfold Z.succ.
    rewrite inject_Z_plus.
    setoid_replace (a + c * (inject_Z (Z.of_nat (List.length l)) + inject_Z 1))
      with ((a + c) + c * inject_Z (Z.of_nat (List.length l))) by ring.
    eapply Qle_trans; [apply IH; intros x Hx; apply Hall; now right |].
    apply Qplus_le_compat; [| apply Qle_refl].
    apply Qplus_le_compat; [apply Qle_refl | apply Hall; now left].
Qed.

Lemma fold_Qplus_ge (c : Q) (l : list Q) :
  (forall x, In x l -> c <= x) ->
  forall a, a + c * inject_Z (Z.of_nat (List.length l)) <= fold_left Qplus l a.
Proof.
  induction l as [| y l IH]; intros Hall a.
  - simpl. setoid_replace (a + c * inject_Z 0) with a by ring. apply Qle_refl.
  - cbn [fold_left List.length]. rewrite Nat2Z.inj_succ. unfold Z.succ.
    rewrite inject_Z_plus.
    setoid_replace (a + c * (inject_Z (Z.of_nat (List.length l)) + inject_Z 1))
      with ((a + c) + c * inject_Z (Z.of_nat (List.length l))) by ring.
    eapply Qle_trans; [| apply IH; intros x Hx; apply Hall; now right].
    apply Qplus_le_compat; [| apply Qle_refl].
    apply Qplus_le_compat; [apply Qle_refl | apply Hall; now left].
Qed.

Lemma length_pos_Q {A} (x : A) (l : list A) :
  0 < inject_Z (Z.of_nat (List.length (x :: l))).
Proof.
  change 0 with (inject_Z 0). rewrite <- Zlt_Qlt. cbn [List.length]. lia.
Qed.

Lemma np_mean_le (hi : Q) (l : list Q) (m : Q) :
  np_mean l = Some m -> (forall x, In x l -> x <= hi) -> m <= hi.
Proof.
  destruct l as [| y l]; [discriminate |]. intros H Hall.
  injection H as <-. unfold np_sum.
  apply Qle_shift_div_r; [apply (length_pos_Q y l) |].
  eapply Qle_trans; [apply (fold_Qplus_le hi); exact Hall |].
  setoid_replace (0 + hi * inject_Z (Z.of_nat (List.length (y :: l))))
    with (hi * inject_Z (Z.of_nat (List.length (y :: l)))) by ring.
  apply Qle_refl.
Qed.

Lemma np_mean_ge (lo : Q) (l : list Q) (m : Q) :
  np_mean l = Some m -> (forall x, In x l -> lo <= x) -> lo <= m.
Proof.
  destruct l as [| y l]; [discriminate |]. intros H Hall.
  injection H as <-. unfold np_sum.
  apply Qle_shift_div_l; [apply (length_pos_Q y l) |].
  eapply Qle_trans; [| apply (fold_Qplus_ge lo); exact Hall].
  setoid_replace (0 + lo * inject_Z (Z.of_nat (List.length (y :: l))))
    with (lo * inject_Z (Z.of_nat (List.length (y :: l)))) by ring.
  apply Qle_refl.
Qed.

Lemma np_mean_gt (c : Q) (l : list Q) (m : Q) :
  np_mean l = Some m -> (forall x, In x l -> c < x) -> c < m.
Proof.
  destruct l as [| y l]; [discriminate |]. intros H Hall.
  injection H as <-. unfold np_sum.
  apply Qlt_shift_div_l; [apply (length_pos_Q y l) |].
  change (c * inject_Z (Z.of_nat (S (List.length l)))
          < fold_left Qplus l (0 + y)).
  rewrite Nat2Z.inj_succ. unfold Z.succ. rewrite inject_Z_plus.
  eapply Qlt_le_trans;
    [| apply (fold_Qplus_ge c l);
       intros x Hx; apply Qlt_le_weak, Hall; now right].
  setoid_replace (c * (inject_Z (Z.of_nat (List.length l)) + inject_Z 1))
    with (c + c * inject_Z (Z.of_nat (List.length l))) by ring.
  setoid_replace (0 + y + c * inject_Z (Z.of_nat (List.length l)))
    with (y + c * inject_Z (Z.of_nat (List.length l))) by ring.
  apply Qplus_lt_le_compat; [apply Hall; now left | apply Qle_refl].
Qed.

Lemma collect_of_rows (predictions : Predictions) (rows : list Row)
    (fraud_probs : list Q) :
  results_df predictions = ok rows ->
  collect_fraud_probs predictions = ok fraud_probs ->
  fraud_probs = map Probabilidad_Fraude rows.
Proof.
  intros Hr Hc. rewrite (results_df_fraud_column _ _ Hr) in Hc.
  injection Hc as <-. reflexivity.
Qed.

Lemma row_label_of (predictions : Predictions) (rows : list Row) (r : Row) :
  results_df predictions = ok rows -> In r rows ->
  Prediccion r = prediccion (Probabilidad_Fraude r).
Proof.
  intros Hr Hin.
  pose proof (results_df_labels _ _ Hr) as Hl.
  rewrite Forall_forall in Hl. now apply Hl.
Qed.

(** X1. A fraud alert is never raised on the mean alone: when the banner
    is the fraud alert, the model with the highest probability is itself
    above one half, so the detail table has at least one [FRAUDE] row. *)
Theorem fraud_alert_has_fraude_row (predictions : Predictions) (avg mx : Q)
    (rows : list Row) :
  headline predictions = ok (avg, mx) ->
  results_df predictions = ok rows ->
  alert avg mx = FraudAlert avg mx ->
  1 # 2 < mx /\
  exists r, In r rows /\ Probabilidad_Fraude r = mx /\ Prediccion r = "FRAUDE".
Proof.
  intros Hh Hr Ha.
  destruct (headline_inv _ _ _ Hh) as (fs & Hc & Hmean & Hmax).
  destruct (np_max_spec _ _ Hmax) as [Hin Hub].
  assert (Havg : 1 # 2 < avg).
  { destruct (alert_cases avg mx) as [[_ L] | [E _]]; [exact L |].
    rewrite E in Ha. discriminate. }
  assert (Hmx : 1 # 2 < mx).
  { eapply Qlt_le_trans; [exact Havg | apply (np_mean_le mx fs avg Hmean Hub)]. }
  split; [exact Hmx |].
  rewrite (collect_of_rows _ _ _ Hr Hc) in Hin.
  apply in_map_iff in Hin as (r & Er & Hr_in).
  exists r. split; [exact Hr_in |]. split; [exact Er |].
  rewrite (row_label_of _ _ _ Hr Hr_in), Er.
  unfold prediccion. apply gt_half_spec in Hmx. rewrite Hmx. reflexivity.
Qed.

Lemma fraud_alert_has_fraude_row_witness :
  1 # 2 < 9 # 10 /\
  exists r, In r (match results_df Demo.mostly_fraud with
                  | inr rows => rows
                  | inl _ => []
                  end) /\
            Probabilidad_Fraude r = 9 # 10 /\ Prediccion r = "FRAUDE".
Proof.
  apply (fraud_alert_has_fraude_row Demo.mostly_fraud (10600 # 16000) (9 # 10)).
  - vm_compute. reflexivity.
  - vm_compute. reflexivity.
  - reflexivity.
Defined.

(** X2. Unanimous models decide the banner: when every row of the table is
    [FRAUDE] the banner is the fraud alert, and when every row is [NORMAL]
    it is the safe banner. *)
Theorem unanimous_rows_decide_banner (predictions : Predictions) (avg mx : Q)
    (rows : list Row) :
  headline predictions = ok (avg, mx) ->
  results_df predictions = ok rows ->
  (Forall (fun r => Prediccion r = "FRAUDE") rows ->
   alert avg mx = FraudAlert avg mx) /\
  (Forall (fun r => Prediccion r = "NORMAL") rows ->
   alert avg mx = SafeAlert avg mx).
Proof.
  intros Hh Hr.
  destruct (headline_inv _ _ _ Hh) as (fs & Hc & Hmean & _).
  rewrite (collect_of_rows _ _ _ Hr Hc) in Hmean.
  split; intros Hall; rewrite Forall_forall in Hall.
  - assert (L : 1 # 2 < avg).
    { apply (np_mean_gt _ _ _ Hmean). intros x Hx.
      apply in_map_iff in Hx as (r & <- & Hin).
      pose proof (Hall r Hin) as Hl.
      rewrite (row_label_of _ _ _ Hr Hin) in Hl.
      destruct (prediccion_cases (Probabilidad_Fraude r)) as [[_ G] | [E _]];
        [exact G |].
      rewrite E in Hl. discriminate. }
    unfold alert. apply gt_half_spec in L. rewrite L. reflexivity.
  - assert (L : avg <= 1 # 2).
    { apply (np_mean_le _ _ _ Hmean). intros x Hx.
      apply in_map_iff in Hx as (r & <- & Hin).
      pose proof (Hall r Hin) as Hl.
      rewrite (row_label_of _ _ _ Hr Hin) in Hl.
      destruct (prediccion_cases (Probabilidad_Fraude r)) as [[E _] | [_ G]];
        [| exact G].
      rewrite E in Hl. discriminate. }
    unfold alert. apply gt_half_false in L. rewrite L. reflexivity.
Qed.

Lemma unanimous_rows_decide_banner_witness :
  (Forall (fun r => Prediccion r = "FRAUDE")
          (match results_df Demo.all_fraud with inr rows => rows | inl _ => [] end) ->
   alert (5900 # 8000) (9 # 10) = FraudAlert (5900 # 8000) (9 # 10)) /\
  (Forall (fun r => Prediccion r = "NORMAL")
          (match results_df Demo.all_fraud with inr rows => rows | inl _ => [] end) ->
   alert (5900 # 8000) (9 # 10) = SafeAlert (5900 # 8000) (9 # 10)).
Proof.
  apply (unanimous_rows_decide_banner Demo.all_fraud (5900 # 8000) (9 # 10)).
  - vm_compute. reflexivity.
  - vm_compute. reflexivity.
Defined.

(** X3. Probabilities in, probabilities out: when every fraud probability
    read from the mapping lies between 0 and 1, so do the mean and the
    maximum of the headline. *)
Theorem headline_within_unit_interval (predictions : Predictions)
    (fraud_probs : list Q) (avg mx : Q) :
  collect_fraud_probs predictions = ok fraud_probs ->
  headline predictions = ok (avg, mx) ->
  Forall (fun f => 0 <= f <= 1) fraud_probs ->
  0 <= avg <= 1 /\ 0 <= mx <= 1.
Proof.
  intros Hc Hh Hall. rewrite Forall_forall in Hall.
  destruct (headline_inv _ _ _ Hh) as (fs & Hc' & Hmean & Hmax).
  rewrite Hc in Hc'. injection Hc' as <-.
  destruct (np_max_spec _ _ Hmax) as [Hin _].
  split.
  - split.
    + apply (np_mean_ge _ _ _ Hmean). intros x Hx. apply (Hall x Hx).
    + apply (np_mean_le _ _ _ Hmean). intros x Hx. apply (Hall x Hx).
  - apply (Hall mx Hin).
Qed.

Lemma headline_within_unit_interval_witness :
  0 <= 1640 # 3200 <= 1 /\ 0 <= 3 # 4 <= 1.
Proof.
  apply (headline_within_unit_interval Demo.four_models
           [1 # 10; 7 # 10; 3 # 4; 1 # 2]).
  - reflexivity.
  - vm_compute. reflexivity.
  - repeat constructor; discriminate.
Defined.

(** ** Further properties of [plot_predictions] *)

Lemma keyed_fraud_probs_length (predictions : Predictions) (models : list string) :
  forall fraud_probs,
    keyed_fraud_probs predictions models = ok fraud_probs ->
    List.length fraud_probs = List.length models.
Proof.
  induction models as [| model rest IH]; simpl; intros fs H.
  - injection H as <-. reflexivity.
  - destruct (dict_get predictions model) as [e | pred]; simpl in H; [discriminate |].
    destruct (chart_fraud_prob model pred) as [e | f]; simpl in H; [discriminate |].
    destruct (keyed_fraud_probs predictions rest) as [e | fs']; simpl in H;
      [discriminate |].
    injection H as <-. simpl. f_equal. now apply IH.
Qed.

(** X4. The two buttons agree: on a dict for which the headline of the
    analysis is computed, [plot_predictions] succeeds too, its gauge shows
    the same mean, and the gauge is red exactly when the banner is the
    fraud alert, green exactly when it is the safe banner. *)
Theorem gauge_agrees_with_banner (predictions : Predictions) (avg mx : Q) :
  NoDup (dict_keys predictions) ->
  headline predictions = ok (avg, mx) ->
  exists fig1 fig2,
    plot_predictions predictions = ok (fig1, fig2) /\
    gauge_value fig2 = Some avg /\
    (gauge_bar_color fig2 = red <-> alert avg mx = FraudAlert avg mx) /\
    (gauge_bar_color fig2 = green <-> alert avg mx = SafeAlert avg mx).
Proof.
  intros Hnd Hh.
  destruct (headline_inv _ _ _ Hh) as (fs & Hc & Hmean & _).
  unfold plot_predictions.
  rewrite (keyed_fraud_probs_items predictions Hnd), Hc. cbn [rbind].
  eexists. eexists. split; [reflexivity |].
  cbn [gauge_value gauge_bar_color]. rewrite Hmean.
  split; [reflexivity |].
  unfold alert, nan_gt_half. destruct (gt_half avg).
  - split; split; intros H; try reflexivity; try discriminate.
  - split; split; intros H; try reflexivity; try discriminate.
Qed.

Lemma gauge_agrees_with_banner_witness :
  exists fig1 fig2,
    plot_predictions Demo.four_models = ok (fig1, fig2) /\
    gauge_value fig2 = Some (1640 # 3200) /\
    (gauge_bar_color fig2 = red
     <-> alert (1640 # 3200) (3 # 4) = FraudAlert (1640 # 3200) (3 # 4)) /\
    (gauge_bar_color fig2 = green
     <-> alert (1640 # 3200) (3 # 4) = SafeAlert (1640 # 3200) (3 # 4)).
Proof.
  apply (gauge_agrees_with_banner Demo.four_models (1640 # 3200) (3 # 4)).
  - apply four_models_keys.
  - vm_compute. reflexivity.
Defined.

(** X5. The bar chart has one bar per key of the mapping, in the order of
    the mapping, and a bar is red exactly when its height is strictly
    above one half, green otherwise. *)
Theorem bar_chart_shape (predictions : Predictions) (fig1 : BarChart)
    (fig2 : Gauge) :
  plot_predictions predictions = ok (fig1, fig2) ->
  bar_x fig1 = dict_keys predictions /\
  List.length (bar_y fig1) = List.length predictions /\
  List.length (bar_marker_color fig1) = List.length predictions /\
  Forall2 (fun prob color =>
             (color = red <-> 1 # 2 < prob) /\
             (color = green <-> prob <= 1 # 2))
          (bar_y fig1) (bar_marker_color fig1).
Proof.
  unfold plot_predictions. intros H.
  destruct (keyed_fraud_probs predictions (dict_keys predictions)) as [e | fs] eqn:Hk;
    [discriminate |].
  cbn [rbind] in H. injection H as <- _.
  cbn [bar_x bar_y bar_marker_color].
  pose proof (keyed_fraud_probs_length _ _ _ Hk) as Hl.
  unfold dict_keys in Hl. rewrite length_map in Hl.
  split; [reflexivity |]. split; [exact Hl |].
  split; [rewrite length_map; exact Hl |].
  clear Hk Hl. induction fs as [| f fs IH]; simpl; constructor; [| exact IH].
  destruct (gt_half f) eqn:E.
  - apply gt_half_spec in E. split; split; intros H; try reflexivity; try exact E.
    + discriminate.
    + apply Qle_not_lt in H. contradiction.
  - apply gt_half_false in E. split; split; intros H; try reflexivity; try exact E.
    + discriminate.
    + apply Qle_not_lt in E. contradiction.
Qed.

Lemma bar_chart_shape_witness :
  bar_x Demo.four_fig1 = dict_keys Demo.four_models /\
  List.length (bar_y Demo.four_fig1) = List.length Demo.four_models /\
  List.length (bar_marker_color Demo.four_fig1) = List.length Demo.four_models /\
  Forall2 (fun prob color =>
             (color = red <-> 1 # 2 < prob) /\
             (color = green <-> prob <= 1 # 2))
          (bar_y Demo.four_fig1) (bar_marker_color Demo.four_fig1).
Proof.
  apply (bar_chart_shape Demo.four_models Demo.four_fig1 Demo.four_fig2).
  vm_compute. reflexivity.
Defined.

(** ** How the readers fail *)

Lemma seq_get_nth (xs : list Q) (i : nat) :
  seq_get xs (Z.of_nat i)
  = match nth_error xs i with
    | Some x => ok x
    | None => raise IndexError
    end.
Proof.
  unfold seq_get.
  destruct (Z.ltb_spec (Z.of_nat i) 0) as [L | _]; [lia |].
  rewrite Nat2Z.id.
  destruct (nth_error xs i) as [x |] eqn:E.
  - assert (Hlt : (i < List.length xs)%nat)
      by (apply nth_error_Some; congruence).
    destruct (Z.leb_spec 0 (Z.of_nat i)); [| lia].
    destruct (Z.ltb_spec (Z.of_nat i) (Z.of_nat (List.length xs))); [| lia].
    reflexivity.
  - destruct ((0 <=? Z.of_nat i)%Z && (Z.of_nat i <? Z.of_nat (List.length xs))%Z)%bool;
      reflexivity.
Qed.

(** X6. For a key other than [svc] whose entry is a sequence, the table
    reads a pair exactly when the sequence has at least two elements: the
    first is the normal probability, the second the fraud probability, and
    whatever follows is ignored. A shorter sequence raises [IndexError] at
    the table and at the chart alike. *)
Theorem sequence_entry_read (key : string) (xs : list Q) :
  String.eqb key "svc" = false ->
  (forall n f,
      table_probs key (PSeq xs) = ok (n, f)
      <-> exists rest, xs = (n :: f :: rest)%list) /\
  (forall n f, table_probs key (PSeq xs) = ok (n, f) ->
               chart_fraud_prob key (PSeq xs) = ok f) /\
  ((List.length xs < 2)%nat ->
   table_probs key (PSeq xs) = raise IndexError /\
   chart_fraud_prob key (PSeq xs) = raise IndexError).
Proof.
  intros Hk. unfold table_probs, chart_fraud_prob. rewrite Hk.
  cbn [subscript].
  change 0%Z with (Z.of_nat 0). change 1%Z with (Z.of_nat 1).
  rewrite !seq_get_nth.
  destruct xs as [| a [| b rest]]; cbn [nth_error rbind raise ok List.length].
  - split; [| split].
    + intros n f. split; [discriminate | intros [r H]; discriminate].
    + intros n f H. discriminate.
    + intros _. split; reflexivity.
  - split; [| split].
    + intros n f. split; [discriminate | intros [r H]; discriminate].
    + intros n f H. discriminate.
    + intros _. split; reflexivity.
  - split; [| split].
    + intros n f. split.
      * intros H. injection H as <- <-. exists rest. reflexivity.
      * intros [r H]. injection H as <- <- _. reflexivity.
    + intros n f H. injection H as _ <-. reflexivity.
    + intros H. lia.
Qed.

Lemma sequence_entry_read_witness :
  (forall n f,
      table_probs "tree" (PSeq [1 # 10; 2 # 10; 7 # 10]) = ok (n, f)
      <-> exists rest, [1 # 10; 2 # 10; 7 # 10] = (n :: f :: rest)%list) /\
  (forall n f, table_probs "tree" (PSeq [1 # 10; 2 # 10; 7 # 10]) = ok (n, f) ->
               chart_fraud_prob "tree" (PSeq [1 # 10; 2 # 10; 7 # 10]) = ok f) /\
  ((List.length [1 # 10; 2 # 10; 7 # 10] < 2)%nat ->
   table_probs "tree" (PSeq [1 # 10; 2 # 10; 7 # 10]) = raise IndexError /\
   chart_fraud_prob "tree" (PSeq [1 # 10; 2 # 10; 7 # 10]) = raise IndexError).
Proof.
  apply (sequence_entry_read "tree" [1 # 10; 2 # 10; 7 # 10]). reflexivity.
Defined.

(** ** What the two buttons render *)

Lemma dict_get_absent {V} (d : list (string * V)) (k : string) :
  ~ In k (dict_keys d) -> dict_get d k = raise (KeyError (KStr k)).
Proof.
  induction d as [| [k' v] d IH]; simpl; intros H; [reflexivity |].
  destruct (String.eqb_spec k' k) as [E | _].
  - exfalso. apply H. now left.
  - apply IH. intros K. apply H. now right.
Qed.

Lemma metrics_from_fails {predictions : Predictions}
    (names_keys : list (string * string)) (key : string) (e0 : Exn) :
  In key (map snd names_keys) ->
  panel_probs predictions key = inl e0 ->
  forall i log,
  exists ms e k,
    metrics_from predictions i names_keys log = (inl e, (log ++ ms)%list) /\
    forallb is_metric ms = true /\
    (List.length ms < List.length names_keys)%nat /\
    In k (map snd names_keys) /\
    panel_probs predictions k = inl e.
Proof.
  induction names_keys as [| [display_name key'] rest IH]; intros Hin Hfail i log.
  - destruct Hin.
  - cbn [metrics_from]. unfold mbind, lift.
    destruct (panel_probs predictions key') as [e | probs] eqn:E.
    + exists [], e, key'. rewrite app_nil_r. cbn [List.length map snd].
      repeat split; [lia | now left | exact E].
    + assert (Hin' : In key (map snd rest)).
      { cbn [map snd] in Hin. destruct Hin as [<- | H]; [| exact H].
        rewrite E in Hfail. discriminate. }
      unfold emit at 1.
      destruct (IH Hin' Hfail (S i)
                  (log ++ [StMetric (i mod 2) display_name (snd probs) (fst probs)])%list)
        as (ms & e & k & Hrun & Hm & Hl & Hk & He).
      exists (StMetric (i mod 2) display_name (snd probs) (fst probs) :: ms), e, k.
      rewrite Hrun, <- app_assoc. cbn [List.length map snd forallb is_metric].
      repeat split; [exact Hm | lia | now right | exact He].
Qed.

Section Buttons.

Variable Models : Type.
Variable process_transaction : Value -> Models -> result Predictions.

(** X7. When the mapping has the four model keys and each of them reads
    well, the analysis renders, in this order: the banner on the mean and
    the maximum, then the four metrics, named and laid out in two columns
    (logistic and svc in the first, kneighbors and tree in the second), and
    no error. *)
Theorem analysis_complete (data : Value) (models : Models)
    (predictions : Predictions) (avg mx n1 f1 n2 f2 n3 f3 n4 f4 : Q) :
  process_transaction data models = ok predictions ->
  headline predictions = ok (avg, mx) ->
  panel_probs predictions "logistic" = ok (n1, f1) ->
  panel_probs predictions "kneighbors" = ok (n2, f2) ->
  panel_probs predictions "svc" = ok (n3, f3) ->
  panel_probs predictions "tree" = ok (n4, f4) ->
  analizar_transaccion Models process_transaction data models []
  = (ok tt, [Invoked data;
             alert avg mx;
             StMetric 0 "Regresión Logística" f1 n1;
             StMetric 1 "K-Vecinos" f2 n2;
             StMetric 0 "SVM" f3 n3;
             StMetric 1 "Árbol de Decisión" f4 n4]).
Proof.
  intros Hp Hh H1 H2 H3 H4.
  unfold analizar_transaccion, try_except, call_process_transaction, mbind, lift, emit.
  rewrite Hp. unfold ok in *. cbn beta iota. rewrite Hh.
  unfold metrics_panel, model_names, model_keys.
  cbn [combine metrics_from]. unfold mbind, lift, emit, mret.
  rewrite H1, H2, H3, H4. reflexivity.
Qed.

(** X8. A model key that the mapping lacks is noticed too late: the banner
    is drawn from the entries that are there, fewer than four metrics
    follow, and only then is the exception of the first unreadable model
    key shown. *)
Theorem missing_model_after_banner (data : Value) (models : Models)
    (predictions : Predictions) (avg mx : Q) (key : string) :
  process_transaction data models = ok predictions ->
  headline predictions = ok (avg, mx) ->
  In key model_keys ->
  ~ In key (dict_keys predictions) ->
  exists ms e k,
    analizar_transaccion Models process_transaction data models []
    = (ok tt, ([Invoked data; alert avg mx] ++ ms
               ++ [StError "Error al procesar la transacción: " (Some e)])%list) /\
    forallb is_metric ms = true /\
    (List.length ms < 4)%nat /\
    In k model_keys /\
    panel_probs predictions k = raise e.
Proof.
  intros Hp Hh Hin Habs.
  assert (Hfail : panel_probs predictions key = inl (KeyError (KStr key))).
  { unfold panel_probs. rewrite (dict_get_absent predictions key Habs).
    destruct (String.eqb key "svc"); reflexivity. }
  destruct (metrics_from_fails (predictions := predictions)
              (combine model_names model_keys) key _ Hin Hfail 0
              [Invoked data; alert avg mx]) as (ms & e & k & Hrun & Hm & Hl & Hk & He).
  exists ms, e, k.
  unfold analizar_transaccion, try_except, call_process_transaction, mbind, lift, emit.
  rewrite Hp. unfold ok in *. cbn beta iota. rewrite Hh.
  unfold metrics_panel. cbn [app fst snd]. rewrite Hrun.
  repeat split; [exact Hm | exact Hl | exact Hk | exact He].
Qed.

(** X9. When [process_transaction] raises, each button shows that
    exception under its own heading and renders nothing else: no banner,
    no metric, no chart, no table. *)
Theorem buttons_show_exception (data : Value) (models : Models) (e : Exn) :
  process_transaction data models = raise e ->
  analizar_transaccion Models process_transaction data models []
  = (ok tt, [Invoked data;
             StError "Error al procesar la transacción: " (Some e)]) /\
  generar_visualizaciones Models process_transaction data models []
  = (ok tt, [Invoked data;
             StError "Error al generar visualizaciones: " (Some e)]).
Proof.
  intros H.
  unfold analizar_transaccion, generar_visualizaciones, try_except,
    call_process_transaction, mbind, lift, emit.
  rewrite H. split; reflexivity.
Qed.

(** X10. The charts are drawn before the table is built: when the chart
    data can be read and the table cannot, both charts stay on the page
    and the exception of the table follows them. *)
Theorem charts_survive_table_error (data : Value) (models : Models)
    (predictions : Predictions) (fig1 : BarChart) (fig2 : Gauge) (e : Exn) :
  process_transaction data models = ok predictions ->
  plot_predictions predictions = ok (fig1, fig2) ->
  results_df predictions = raise e ->
  generar_visualizaciones Models process_transaction data models []
  = (ok tt, [Invoked data; PlotlyBar fig1; PlotlyGauge fig2;
             StError "Error al generar visualizaciones: " (Some e)]).
Proof.
  intros Hp Hplot Hrows.
  unfold generar_visualizaciones, try_except, call_process_transaction,
    mbind, lift, emit.
  rewrite Hp. unfold ok, raise in *. cbn beta iota. rewrite Hplot.
  cbn beta iota. rewrite Hrows. reflexivity.
Qed.

(** X11. When the table can be built, the visualisation renders the bar
    chart, the gauge and a table with one row per entry of the mapping, and
    no error. *)
Theorem visualisation_complete (data : Value) (models : Models)
    (predictions : Predictions) (rows : list Row) :
  NoDup (dict_keys predictions) ->
  process_transaction data models = ok predictions ->
  results_df predictions = ok rows ->
  exists fig1 fig2,
    plot_predictions predictions = ok (fig1, fig2) /\
    generar_visualizaciones Models process_transaction data models []
    = (ok tt, [Invoked data; PlotlyBar fig1; PlotlyGauge fig2; DataFrame rows]) /\
    List.length rows = List.length predictions /\
    bar_y fig1 = map Probabilidad_Fraude rows.
Proof.
  intros Hnd Hp Hrows.
  pose proof (results_df_fraud_column _ _ Hrows) as Hc.
  assert (Hplot : exists fig1 fig2, plot_predictions predictions = ok (fig1, fig2) /\
                                    bar_y fig1 = map Probabilidad_Fraude rows).
  { unfold plot_predictions.
    rewrite (keyed_fraud_probs_items predictions Hnd), Hc. cbn [rbind].
    eexists. eexists. split; reflexivity. }
  destruct Hplot as (fig1 & fig2 & Hplot & Hy).
  exists fig1, fig2. split; [exact Hplot |]. split; [| split; [| exact Hy]].
  - unfold generar_visualizaciones, try_except, call_process_transaction,
      mbind, lift, emit.
    rewrite Hp. unfold ok in *. cbn beta iota. rewrite Hplot.
    cbn beta iota. rewrite Hrows. reflexivity.
  - pose proof (collect_fraud_probs_length _ _ Hc) as Hl.
    rewrite length_map in Hl. exact Hl.
Qed.

(** X12. An empty mapping splits the two buttons: the analysis stops on
    the [ValueError] of [np.max] and draws no banner, while the
    visualisation draws an empty bar chart, a gauge without a value and
    coloured green, and an empty table. *)
Theorem empty_predictions (data : Value) (models : Models) :
  process_transaction data models = ok [] ->
  analizar_transaccion Models process_transaction data models []
  = (ok tt, [Invoked data;
             StError "Error al procesar la transacción: " (Some ValueError)]) /\
  generar_visualizaciones Models process_transaction data models []
  = (ok tt, [Invoked data;
             PlotlyBar {| bar_x := []; bar_y := []; bar_marker_color := [] |};
             PlotlyGauge {| gauge_value := None; gauge_bar_color := green |};
             DataFrame []]).
Proof.
  intros H.
  unfold analizar_transaccion, generar_visualizaciones, try_except,
    call_process_transaction, mbind, lift, emit.
  rewrite H. split; reflexivity.
Qed.

End Buttons.

Lemma analysis_complete_witness :
  analizar_transaccion unit (fun _ _ => ok Demo.four_models) VNone tt []
  = (ok tt, [Invoked VNone;
             alert (1640 # 3200) (3 # 4);
             StMetric 0 "Regresión Logística" (1 # 10) (9 # 10);
             StMetric 1 "K-Vecinos" (7 # 10) (3 # 10);
             StMetric 0 "SVM" (3 # 4) (1 # 4);
             StMetric 1 "Árbol de Decisión" (1 # 2) (1 # 2)]).
Proof.
  apply (analysis_complete unit (fun _ _ => ok Demo.four_models) VNone tt
           Demo.four_models); reflexivity.
Defined.

Lemma missing_model_after_banner_witness :
  exists ms e k,
    analizar_transaccion unit (fun _ _ => ok Demo.no_tree) VNone tt []
    = (ok tt, ([Invoked VNone; alert (940 # 1200) (9 # 10)] ++ ms
               ++ [StError "Error al procesar la transacción: " (Some e)])%list) /\
    forallb is_metric ms = true /\
    (List.length ms < 4)%nat /\
    In k model_keys /\
    panel_probs Demo.no_tree k = raise e.
Proof.
  apply (missing_model_after_banner unit (fun _ _ => ok Demo.no_tree) VNone tt
           Demo.no_tree (940 # 1200) (9 # 10) "tree").
  - reflexivity.
  - reflexivity.
  - simpl. auto.
  - simpl. intuition discriminate.
Defined.

Lemma buttons_show_exception_witness :
  analizar_transaccion unit (fun _ _ => raise (OtherError "model failed")) VNone tt []
  = (ok tt, [Invoked VNone;
             StError "Error al procesar la transacción: "
                     (Some (OtherError "model failed"))]) /\
  generar_visualizaciones unit (fun _ _ => raise (OtherError "model failed")) VNone tt []
  = (ok tt, [Invoked VNone;
             StError "Error al generar visualizaciones: "
                     (Some (OtherError "model failed"))]).
Proof.
  apply (buttons_show_exception unit
           (fun _ _ => raise (OtherError "model failed")) VNone tt).
  reflexivity.
Defined.

Lemma charts_survive_table_error_witness :
  generar_visualizaciones unit (fun _ _ => ok Demo.svc_fraud_only) VNone tt []
  = (ok tt, [Invoked VNone;
             PlotlyBar {| bar_x := ["logistic"; "svc"];
                          bar_y := [1 # 10; 3 # 4];
                          bar_marker_color := [green; red] |};
             PlotlyGauge {| gauge_value := Some (34 # 80);
                            gauge_bar_color := green |};
             StError "Error al generar visualizaciones: "
                     (Some (KeyError (KStr "non_fraud")))]).
Proof.
  apply (charts_survive_table_error unit (fun _ _ => ok Demo.svc_fraud_only)
           VNone tt Demo.svc_fraud_only); reflexivity.
Defined.

Lemma visualisation_complete_witness :
  exists fig1 fig2,
    plot_predictions Demo.four_models = ok (fig1, fig2) /\
    generar_visualizaciones unit (fun _ _ => ok Demo.four_models) VNone tt []
    = (ok tt, [Invoked VNone; PlotlyBar fig1; PlotlyGauge fig2;
               DataFrame Demo.four_rows]) /\
    List.length Demo.four_rows = List.length Demo.four_models /\
    bar_y fig1 = map Probabilidad_Fraude Demo.four_rows.
Proof.
  apply (visualisation_complete unit (fun _ _ => ok Demo.four_models) VNone tt
           Demo.four_models Demo.four_rows).
  - apply four_models_keys.
  - reflexivity.
  - reflexivity.
Defined.

Lemma empty_predictions_witness :
  analizar_transaccion unit (fun _ _ => ok []) VNone tt []
  = (ok tt, [Invoked VNone;
             StError "Error al procesar la transacción: " (Some ValueError)]) /\
  generar_visualizaciones unit (fun _ _ => ok []) VNone tt []
  = (ok tt, [Invoked VNone;
             PlotlyBar {| bar_x := []; bar_y := []; bar_marker_color := [] |};
             PlotlyGauge {| gauge_value := None; gauge_bar_color := green |};
             DataFrame []]).
Proof.
  apply (empty_predictions unit (fun _ _ => ok []) VNone tt). reflexivity.
Defined.

(** ** Which transaction [main] scores *)

Section Runs.

Variable Models : Type.
Variable models_len : Models -> nat.
Variable process_transaction : Value -> Models -> result Predictions.
Variable json_loads : string -> result Value.

Lemma input_section_ok (i : Inputs) (log : list UI) :
  (data_input_method i = JSON -> json_input i <> "" ->
   forall e, json_loads (json_input i) = raise e -> e = JSONDecodeError) ->
  exists data log1, input_section json_loads i log = (ok data, log1).
Proof.
  intros Hjson. unfold input_section.
  destruct (data_input_method i) eqn:Hm.
  - eexists. eexists. reflexivity.
  - eexists. eexists. reflexivity.
  - eexists. eexists. reflexivity.
  - destruct (String.eqb_spec (json_input i) "") as [E | Hne].
    + eexists. eexists. reflexivity.
    + unfold try_except_json, mbind, lift.
      destruct (json_loads (json_input i)) as [e | d] eqn:Hl.
      * rewrite (Hjson eq_refl Hne e eq_refl). eexists. eexists. reflexivity.
      * eexists. eexists. reflexivity.
Qed.

(** X13. [main] lets no exception out: whether or not the models load,
    whatever the method, the entries and the buttons, and whatever
    [process_transaction] does, the run ends normally, provided that
    [json.loads] raises nothing but [JSONDecodeError]. *)
Theorem main_never_raises (load_models : result Models) (i : Inputs) :
  (data_input_method i = JSON -> json_input i <> "" ->
   forall e, json_loads (json_input i) = raise e -> e = JSONDecodeError) ->
  fst (main Models models_len load_models process_transaction json_loads i [])
  = ok tt.
Proof.
  intros Hjson. destruct load_models as [e | models].
  - reflexivity.
  - destruct (input_section_ok i [StSuccess (loaded_msg (models_len models))] Hjson)
      as (data & log1 & Hin).
    destruct (main_after_input Models models_len process_transaction json_loads
                models i data log1 Hin) as (rest & Hrun & _).
    unfold ok in Hrun. rewrite Hrun. reflexivity.
Qed.

(** X14. Any other exception of [json.loads] is not caught: it ends the
    run right after the models were announced, before any button is looked
    at, so nothing is scored. *)
Theorem other_json_exception_escapes (models : Models) (i : Inputs) (e : Exn) :
  data_input_method i = JSON ->
  json_input i <> "" ->
  json_loads (json_input i) = raise e ->
  e <> JSONDecodeError ->
  main Models models_len (ok models) process_transaction json_loads i []
  = (raise e, [StSuccess (loaded_msg (models_len models))]).
Proof.
  intros Hm Hne Hl He. unfold main.
  rewrite (mbind_ok _ _ [] [] (Some models)) by reflexivity.
  rewrite (mbind_ok _ _ [] [StSuccess (loaded_msg (models_len models))] tt)
    by reflexivity.
  unfold mbind at 1. unfold input_section. rewrite Hm.
  destruct (String.eqb_spec (json_input i) "") as [E | _]; [contradiction |].
  unfold try_except_json, mbind, lift. rewrite Hl.
  destruct e; try reflexivity. contradiction.
Qed.

(** X15. The canned transaction that is shown is the one that is scored:
    with either example method, the run displays the generated transaction
    and every call of the models in that run is on that same
    transaction. *)
Theorem sample_shown_is_scored (models : Models) (i : Inputs) (sample : Value) :
  (data_input_method i = Ejemplo_Normal /\
   sample = create_sample_transaction (rng i)) \/
  (data_input_method i = Ejemplo_Fraudulento /\
   sample = create_fraud_sample (rng i)) ->
  exists rest,
    main Models models_len (ok models) process_transaction json_loads i []
    = (ok tt, ([StSuccess (loaded_msg (models_len models)); StJson sample]
               ++ rest)%list) /\
    invocations rest
    = (clicked (analizar i) sample ++ clicked (visualizar i) sample)%list.
Proof.
  intros [[Hm ->] | [Hm ->]];
    apply main_after_input; unfold input_section; rewrite Hm; reflexivity.
Qed.

(** X16. A pasted transaction is scored as it was parsed: when
    [json.loads] accepts the text, the run confirms it and every call of
    the models is on the parsed value itself, whatever its keys, its values
    or even its type. *)
Theorem parsed_json_scored_as_is (models : Models) (i : Inputs) (data : Value) :
  data_input_method i = JSON ->
  json_input i <> "" ->
  json_loads (json_input i) = ok data ->
  exists rest,
    main Models models_len (ok models) process_transaction json_loads i []
    = (ok tt, ([StSuccess (loaded_msg (models_len models));
                StSuccess "✅ JSON válido"] ++ rest)%list) /\
    invocations rest
    = (clicked (analizar i) data ++ clicked (visualizar i) data)%list.
Proof.
  intros Hm Hne Hl. apply main_after_input.
  exact (json_input_unchecked json_loads i data
           [StSuccess (loaded_msg (models_len models))] Hm Hne Hl).
Qed.

(** X17. With the manual method every call of the models is on the
    transaction built by the form, once per button pressed. *)
Theorem manual_form_is_scored (models : Models) (i : Inputs) :
  data_input_method i = Manual ->
  exists rest,
    main Models models_len (ok models) process_transaction json_loads i []
    = (ok tt, ([StSuccess (loaded_msg (models_len models))] ++ rest)%list) /\
    invocations rest
    = (clicked (analizar i) (manual_form i)
       ++ clicked (visualizar i) (manual_form i))%list.
Proof.
  intros Hm. apply main_after_input. unfold input_section. rewrite Hm.
  reflexivity.
Qed.

End Runs.

Lemma main_never_raises_witness :
  fst (main unit (fun _ => 4%nat) (ok tt) (fun _ _ => raise TypeError)
            (fun _ => raise JSONDecodeError) (Demo.inputs JSON "{") [])
  = ok tt.
Proof.
  apply (main_never_raises unit (fun _ => 4%nat) (fun _ _ => raise TypeError)
           (fun _ => raise JSONDecodeError) (ok tt) (Demo.inputs JSON "{")).
  intros _ _ e H. injection H as <-. reflexivity.
Defined.

Lemma other_json_exception_escapes_witness :
  main unit (fun _ => 4%nat) (ok tt) (fun _ _ => ok Demo.four_models)
       (fun _ => raise (OtherError "RecursionError")) (Demo.inputs JSON "[[[[") []
  = (raise (OtherError "RecursionError"), [StSuccess (loaded_msg 4)]).
Proof.
  apply (other_json_exception_escapes unit (fun _ => 4%nat)
           (fun _ _ => ok Demo.four_models)
           (fun _ => raise (OtherError "RecursionError")) tt
           (Demo.inputs JSON "[[[[") (OtherError "RecursionError")).
  - reflexivity.
  - discriminate.
  - reflexivity.
  - discriminate.
Defined.

Lemma sample_shown_is_scored_witness :
  exists rest,
    main unit (fun _ => 4%nat) (ok tt) (fun _ _ => ok Demo.four_models)
         (fun _ => raise JSONDecodeError) (Demo.inputs Ejemplo_Fraudulento "") []
    = (ok tt, ([StSuccess (loaded_msg 4);
                StJson (create_fraud_sample (fun _ => 0))] ++ rest)%list) /\
    invocations rest
    = (clicked true (create_fraud_sample (fun _ => 0))
       ++ clicked true (create_fraud_sample (fun _ => 0)))%list.
Proof.
  apply (sample_shown_is_scored unit (fun _ => 4%nat)
           (fun _ _ => ok Demo.four_models) (fun _ => raise JSONDecodeError)
           tt (Demo.inputs Ejemplo_Fraudulento "")).
  right. split; reflexivity.
Defined.

Lemma parsed_json_scored_as_is_witness :
  exists rest,
    main unit (fun _ => 4%nat) (ok tt) (fun _ _ => ok Demo.four_models)
         (fun _ => ok (VList [VInt 1; VInt 2])) (Demo.inputs JSON "[1, 2]") []
    = (ok tt, ([StSuccess (loaded_msg 4); StSuccess "✅ JSON válido"]
               ++ rest)%list) /\
    invocations rest
    = (clicked true (VList [VInt 1; VInt 2])
       ++ clicked true (VList [VInt 1; VInt 2]))%list.
Proof.
  apply (parsed_json_scored_as_is unit (fun _ => 4%nat)
           (fun _ _ => ok Demo.four_models)
           (fun _ => ok (VList [VInt 1; VInt 2])) tt (Demo.inputs JSON "[1, 2]")).
  - reflexivity.
  - discriminate.
  - reflexivity.
Defined.

Lemma manual_form_is_scored_witness :
  exists rest,
    main unit (fun _ => 4%nat) (ok tt) (fun _ _ => ok Demo.four_models)
         (fun _ => raise JSONDecodeError) (Demo.inputs Manual "") []
    = (ok tt, ([StSuccess (loaded_msg 4)] ++ rest)%list) /\
    invocations rest
    = (clicked true (manual_form (Demo.inputs Manual ""))
       ++ clicked true (manual_form (Demo.inputs Manual "")))%list.
Proof.
  apply (manual_form_is_scored unit (fun _ => 4%nat)
           (fun _ _ => ok Demo.four_models) (fun _ => raise JSONDecodeError)
           tt (Demo.inputs Manual "")).
  reflexivity.
Defined.

(** ** The values of the twenty-eight anonymous fields *)

Ltac each_field n :=
  destruct n as [| n]; [lia |];
  do 28 (destruct n as [| n]; [vm_compute; reflexivity |]);
  lia.

Lemma form_v_lookup (a t : Value) (entry : nat -> Q) (n : nat) :
  (1 <= n <= 28)%nat ->
  dict_get
    (fold_left (fun d k => dict_set d (v_key k) (VFloat (entry k)))
               (seq 1 10 ++ seq 11 10 ++ seq 21 8)%list
               (dict_set (dict_set [] "amount" a) "time" t))
    (v_key n)
  = ok (VFloat (entry n)).
Proof. intros H. each_field n. Qed.

Lemma sample_v_lookup (a t : Value) (draw : nat -> nat -> Q) (n : nat) :
  (1 <= n <= 28)%nat ->
  dict_get (dict_of_items ([("amount", a); ("time", t)] ++ v_items draw)%list)
           (v_key n)
  = ok (VFloat (draw (n - 1)%nat n)).
Proof. intros H. each_field n. Qed.

(** X18. The three tabs of the manual form cover the anonymous fields
    exactly: for every [n] from 1 to 28 the transaction holds under [vn]
    the number typed in field [Vn], unchanged (these fields have no
    bounds). *)
Theorem manual_form_keeps_v_entries (i : Inputs) (n : nat) :
  (1 <= n <= 28)%nat ->
  exists items,
    manual_form i = VDict items /\
    dict_get items (v_key n) = ok (VFloat (v_entry i n)).
Proof.
  intros H. unfold manual_form. eexists. split; [reflexivity |].
  apply (form_v_lookup _ _ (v_entry i) n H).
Qed.

Lemma manual_form_keeps_v_entries_witness :
  exists items,
    manual_form (Demo.inputs Manual "") = VDict items /\
    dict_get items (v_key 28) = ok (VFloat (v_entry (Demo.inputs Manual "") 28)).
Proof.
  apply (manual_form_keeps_v_entries (Demo.inputs Manual "") 28). lia.
Defined.

(** X19. The canned transactions use one draw per anonymous field, in
    order: field [vn] receives the [n]-th variate of the generator, as it
    is in the normal example, doubled in the fraud example for [n] among 1,
    3, 7, 10 and 14 and halved for every other [n]. *)
Theorem sample_values_follow_draws (rng : nat -> Q) (n : nat) :
  (1 <= n <= 28)%nat ->
  (exists items x,
      create_sample_transaction rng = VDict items /\
      dict_get items (v_key n) = ok (VFloat x) /\
      x == rng (n - 1)%nat) /\
  (exists items x,
      create_fraud_sample rng = VDict items /\
      dict_get items (v_key n) = ok (VFloat x) /\
      x == (if in_fraud_list n then 2 else 1 # 2) * rng (n - 1)%nat).
Proof.
  intros H. split.
  - unfold create_sample_transaction. eexists. eexists.
    split; [reflexivity |]. split.
    + apply (sample_v_lookup _ _ (fun k _ => np_random_normal rng k 0 1) n H).
    + unfold np_random_normal. ring.
  - unfold create_fraud_sample. eexists. eexists.
    split; [reflexivity |]. split.
    + apply (sample_v_lookup _ _
               (fun k j => if in_fraud_list j
                           then np_random_normal rng k 0 2
                           else np_random_normal rng k 0 (1 # 2)) n H).
    + cbv beta. destruct (in_fraud_list n); unfold np_random_normal; ring.
Qed.

Lemma sample_values_follow_draws_witness :
  (exists items x,
      create_sample_transaction (fun k => inject_Z (Z.of_nat k)) = VDict items /\
      dict_get items (v_key 7) = ok (VFloat x) /\
      x == (fun k => inject_Z (Z.of_nat k)) (7 - 1)%nat) /\
  (exists items x,
      create_fraud_sample (fun k => inject_Z (Z.of_nat k)) = VDict items /\
      dict_get items (v_key 7) = ok (VFloat x) /\
      x == (if in_fraud_list 7 then 2 else 1 # 2)
           * (fun k => inject_Z (Z.of_nat k)) (7 - 1)%nat).
Proof.
  apply (sample_values_follow_draws (fun k => inject_Z (Z.of_nat k)) 7). lia.
Defined.

(** ** What the analysis guarantees about the four models *)






